(** * TerraGraph dashboard (main.py, agent.py): a shallow embedding

    The Python program is glue over remote services.  The embedding keeps
    - Python values as [json.loads] produces them ([pyval]),
    - exceptions as values of an error type ([exn]) threaded through a
      result monad,
    - the user interface and the remote calls as an event trace.

    Library calls (requests, pandas, plotly, streamlit, groq, ghana_nlp) are
    either parameters of the functions that use them or small documented
    models of the library's behaviour. *)

From Stdlib Require Import ZArith String List Lia.
From Stdlib Require Import Floats.
From stdpp Require Import base strings list pretty.

Set Warnings "-register-all".
Local Open Scope string_scope.
Local Open Scope Z_scope.

(** ** Python values and exceptions *)

(** What [json.loads] can return.  A dict keeps its insertion order. *)
Inductive pyval : Type :=
| PNone
| PBool (b : bool)
| PInt (z : Z)
| PFloat (f : float)
| PStr (s : string)
| PList (l : list pyval)
| PDict (kv : list (string * pyval)).

(** The exception classes that occur in the two modules.  Messages of the
    exceptions raised by the interpreter follow CPython 3.12. *)
Inductive exn_class : Type :=
| KeyError
| IndexError
| TypeError
| ValueError
| OverflowError
| UnboundLocalError
| JSONDecodeError          (* json.JSONDecodeError, a ValueError *)
| ConnectionError          (* requests.exceptions.ConnectionError *)
| Timeout                  (* requests.exceptions.Timeout *)
| HTTPError                (* requests.exceptions.HTTPError *)
| OtherRequestException    (* any other requests.exceptions.RequestException *)
| GroqError                (* groq's errors, all deriving from Exception *)
| OtherException           (* any other class deriving from Exception *)
| KeyboardInterrupt        (* BaseException, not Exception *)
| SystemExit               (* BaseException, not Exception *)
| OutsideModel.            (* a library call on a shape this model leaves out *)

(** [exn_str e] is what [str(e)] gives. *)
Record exn : Type := Exn { exn_cls : exn_class; exn_str : string }.

(** [isinstance(e, requests.exceptions.RequestException)] *)
Definition is_RequestException (e : exn) : bool :=
  match exn_cls e with
  | ConnectionError | Timeout | HTTPError | OtherRequestException => true
  | _ => false
  end.

(** [isinstance(e, Exception)] *)
Definition is_Exception (e : exn) : bool :=
  match exn_cls e with
  | KeyboardInterrupt | SystemExit => false
  | _ => true
  end.

Inductive result (A : Type) : Type :=
| Ok (a : A)
| Raise (e : exn).
Arguments Ok {A} a.
Arguments Raise {A} e.

Definition rbind {A B} (r : result A) (k : A -> result B) : result B :=
  match r with
  | Ok a => k a
  | Raise e => Raise e
  end.

Declare Scope res_scope.
Delimit Scope res_scope with res.
Notation "'let?' x ':=' r 'in' k" := (rbind r (fun x => k))
  (at level 10, x name, r at level 100, k at level 200) : res_scope.
Local Open Scope res_scope.

Definition type_name (v : pyval) : string :=
  match v with
  | PNone => "NoneType"
  | PBool _ => "bool"
  | PInt _ => "int"
  | PFloat _ => "float"
  | PStr _ => "str"
  | PList _ => "list"
  | PDict _ => "dict"
  end.

(** Lookup in a dict: the first binding of the key. *)
Fixpoint dict_get (k : string) (kv : list (string * pyval)) : option pyval :=
  match kv with
  | [] => None
  | (k', v) :: rest => if String.eqb k k' then Some v else dict_get k rest
  end.

(** The characters of a string, each as a one-character string. *)
Fixpoint str_chars (s : string) : list pyval :=
  match s with
  | EmptyString => []
  | String c rest => PStr (String c EmptyString) :: str_chars rest
  end.

(** [v[k]] for a string literal [k]. *)
Definition subscript_key (v : pyval) (k : string) : result pyval :=
  match v with
  | PDict kv =>
      match dict_get k kv with
      | Some x => Ok x
      | None => Raise (Exn KeyError ("'" ++ k ++ "'"))
      end
  | PList _ => Raise (Exn TypeError "list indices must be integers or slices, not str")
  | PStr _ => Raise (Exn TypeError "string indices must be integers, not 'str'")
  | _ => Raise (Exn TypeError ("'" ++ type_name v ++ "' object is not subscriptable"))
  end.

(** [v[0]] *)
Definition subscript_0 (v : pyval) : result pyval :=
  match v with
  | PList (x :: _) => Ok x
  | PList [] => Raise (Exn IndexError "list index out of range")
  | PStr (String c _) => Ok (PStr (String c EmptyString))
  | PStr EmptyString => Raise (Exn IndexError "string index out of range")
  | PDict _ => Raise (Exn KeyError "0")
  | _ => Raise (Exn TypeError ("'" ++ type_name v ++ "' object is not subscriptable"))
  end.

(** What [for item in v] iterates over. *)
Definition py_iter (v : pyval) : result (list pyval) :=
  match v with
  | PList l => Ok l
  | PDict kv => Ok (map (fun p => PStr (fst p)) kv)
  | PStr s => Ok (str_chars s)
  | _ => Raise (Exn TypeError ("'" ++ type_name v ++ "' object is not iterable"))
  end.

(** [[f(item) for item in items]]: left to right, the first exception ends it. *)
Fixpoint list_comprehension {A B} (f : A -> result B) (items : list A) : result (list B) :=
  match items with
  | [] => Ok []
  | x :: rest =>
      let? y := f x in
      let? ys := list_comprehension f rest in
      Ok (y :: ys)
  end.

(** [v > 0.5].  Python compares an int with a float exactly, and a bool is an
    int; every other operand type raises. *)
Definition gt_half (v : pyval) : result bool :=
  match v with
  | PInt z => Ok (1 <=? z)
  | PBool b => Ok b
  | PFloat f => Ok (0.5 <? f)%float
  | _ => Raise (Exn TypeError
           ("'>' not supported between instances of '" ++ type_name v ++ "' and 'float'"))
  end.

(** [any(p(x) for x in xs)]: stops at the first true element. *)
Fixpoint py_any {A} (p : A -> result bool) (xs : list A) : result bool :=
  match xs with
  | [] => Ok false
  | x :: rest =>
      let? b := p x in
      if b then Ok true else py_any p rest
  end.

(** ** main.py: the series of a payload, the classifier *)

(** [data['data'][0]['coordinates'][0]['dates']] *)
Definition dates_of (data : pyval) : result pyval :=
  let? d := subscript_key data "data" in
  let? block := subscript_0 d in
  let? cs := subscript_key block "coordinates" in
  let? c := subscript_0 cs in
  subscript_key c "dates".

(** [[item['value'] for item in data['data'][0]['coordinates'][0]['dates']]] *)
Definition precip_data (data : pyval) : result (list pyval) :=
  let? dates := dates_of data in
  let? items := py_iter dates in
  list_comprehension (fun item => subscript_key item "value") items.

(** main.py, [predict_rainfall]. *)
Definition predict_rainfall (data : pyval) : result bool :=
  let? precip := precip_data data in
  py_any gt_half precip.

(** A sample value is a JSON number. *)
Definition is_number (v : pyval) : Prop :=
  match v with
  | PInt _ | PFloat _ => True
  | _ => False
  end.

(** The value exceeds 0.5: for an int as a rational, for a float by the
    IEEE comparison. *)
Definition exceeds_half (v : pyval) : Prop :=
  match v with
  | PInt z => 1 < 2 * z
  | PFloat f => (0.5 <? f)%float = true
  | _ => False
  end.

(** The value is at most 0.5. *)
Definition at_most_half (v : pyval) : Prop :=
  match v with
  | PInt z => 2 * z <= 1
  | PFloat f => (f <=? 0.5)%float = true
  | _ => False
  end.

(** A payload with the shape the weather API answers with: one parameter
    block per requested parameter, each with one coordinate and its samples. *)
Definition sample (date : string) (value : pyval) : pyval :=
  PDict [("date", PStr date); ("value", value)].

Definition block (parameter : string) (lat lon : float) (samples : list pyval) : pyval :=
  PDict [("parameter", PStr parameter);
         ("coordinates",
          PList [PDict [("lat", PFloat lat); ("lon", PFloat lon); ("dates", PList samples)]])].

Definition payload (blocks : list pyval) : pyval :=
  PDict [("version", PStr "3.0"); ("status", PStr "OK"); ("data", PList blocks)].

(** The fixture of the spec: precipitation 0.0, 0.2, 0.6, 0.1. *)
Definition fixture_samples : list pyval :=
  [ sample "2024-10-05T00:00:00Z" (PFloat 0x0p+0%float);
    sample "2024-10-05T01:00:00Z" (PFloat 0x1.999999999999ap-3%float);
    sample "2024-10-05T02:00:00Z" (PFloat 0x1.3333333333333p-1%float);
    sample "2024-10-05T03:00:00Z" (PFloat 0x1.999999999999ap-4%float) ].

Definition fixture : pyval :=
  payload [block "precip_1h:mm" 0x1.a42a16a487336p+5%float 0x1.aec7192ea52f0p+3%float fixture_samples].

Definition empty_fixture : pyval :=
  payload [block "precip_1h:mm" 0x1.a42a16a487336p+5%float 0x1.aec7192ea52f0p+3%float []].

(** An answer in the order of the request URL: temperature first, then a
    precipitation series that stays at zero. *)
Definition dry_mild_day : pyval :=
  payload
    [ block "t_2m:C" 0x1.a42a16a487336p+5%float 0x1.aec7192ea52f0p+3%float
        [ sample "2024-10-05T00:00:00Z" (PFloat 0x1.8p+3%float);
          sample "2024-10-05T01:00:00Z" (PFloat 0x1.7p+3%float) ];
      block "precip_1h:mm" 0x1.a42a16a487336p+5%float 0x1.aec7192ea52f0p+3%float
        [ sample "2024-10-05T00:00:00Z" (PFloat 0x0p+0%float);
          sample "2024-10-05T01:00:00Z" (PFloat 0x0p+0%float) ] ].

(** ** pandas and plotly, as far as [plot_weather_data] uses them

    [pd.DataFrame] is modelled on a list of records (dicts), the shape the
    weather API gives to [dates]; a frame is stored by column, as pandas does,
    and every column goes through the dtype inference of pandas. *)

Record DataFrame : Type := { df_length : nat; df_data : list (string * list pyval) }.

(** The cell pandas fills in where a record has no such key. *)
Definition NaN : pyval := PFloat nan.

Definition add_key (acc : list string) (k : string) : list string :=
  if existsb (String.eqb k) acc then acc else acc ++ [k].

(** The column labels: the keys of the records, in order of first appearance. *)
Definition frame_columns (recs : list (list (string * pyval))) : list string :=
  fold_left add_key (concat (map (map fst) recs)) [].

Definition cell (c : string) (r : list (string * pyval)) : pyval :=
  match dict_get c r with
  | Some v => v
  | None => NaN
  end.

(** A Python int as a float64: rounded to nearest, ties to even. *)
Definition float_of_int (z : Z) : float :=
  SF2Prim (binary_normalize prec emax z 0 false).

Definition is_float_cell (v : pyval) : bool :=
  match v with PFloat _ => true | _ => false end.

Definition is_int_cell (v : pyval) : bool :=
  match v with PInt _ => true | _ => false end.

Definition is_none_cell (v : pyval) : bool :=
  match v with PNone => true | _ => false end.

(** A cell that keeps its column at dtype object (a str, a list, a dict, an
    int outside the int64 range) or bool: the values stay as they are. *)
Definition keeps_values (v : pyval) : bool :=
  match v with
  | PStr _ | PList _ | PDict _ | PBool _ => true
  | PInt z => negb ((- 2 ^ 63 <=? z) && (z <? 2 ^ 63))
  | _ => false
  end.

Definition as_float64 (v : pyval) : pyval :=
  match v with
  | PInt z => PFloat (float_of_int z)
  | PNone => PFloat nan
  | _ => v
  end.

(** The dtype inference on one column of cells: a column of ints, floats and
    None becomes float64 as soon as it holds a float (NaN of a missing key
    included) or a None beside an int, an int then turns into the nearest
    float and a None into NaN; every other column keeps its values. *)
Definition infer_column (cells : list pyval) : list pyval :=
  if existsb keeps_values cells then cells
  else if existsb is_float_cell cells || (existsb is_none_cell cells && existsb is_int_cell cells)
       then map as_float64 cells
       else cells.

Fixpoint as_records (l : list pyval) : option (list (list (string * pyval))) :=
  match l with
  | [] => Some []
  | PDict kv :: rest =>
      match as_records rest with
      | Some recs => Some (kv :: recs)
      | None => None
      end
  | _ :: _ => None
  end.

Fixpoint quoted_labels (cols : list string) : string :=
  match cols with
  | [] => ""
  | [c] => "'" ++ c ++ "'"
  | c :: rest => "'" ++ c ++ "', " ++ quoted_labels rest
  end.

(** [pd.DataFrame(v)] *)
Definition pd_DataFrame (v : pyval) : result DataFrame :=
  match v with
  | PList l =>
      match as_records l with
      | Some recs =>
          Ok {| df_length := length recs;
                df_data :=
                  map (fun c => (c, infer_column (map (cell c) recs))) (frame_columns recs) |}
      | None => Raise (Exn OutsideModel "DataFrame of a list that is not a list of records")
      end
  | _ => Raise (Exn OutsideModel "DataFrame of a value that is not a list")
  end.

Fixpoint df_column (c : string) (cols : list (string * list pyval)) : option (list pyval) :=
  match cols with
  | [] => None
  | (c', xs) :: rest => if String.eqb c c' then Some xs else df_column c rest
  end.

(** A line chart: its title and the one trace [px.line] draws when no colour
    column is given, as the x and y arrays of the trace. *)
Record Figure : Type := { fig_title : string; fig_x : list pyval; fig_y : list pyval }.

(** The plotted points of the trace, in drawing order. *)
Definition fig_points (fig : Figure) : list (pyval * pyval) :=
  combine (fig_x fig) (fig_y fig).

Definition not_a_column (arg : string) (df : DataFrame) (c : string) : exn :=
  Exn ValueError
    ("Value of '" ++ arg ++ "' is not the name of a column in 'data_frame'. Expected one of ["
       ++ quoted_labels (map fst (df_data df)) ++ "] but received: " ++ c).

(** [px.line(df, x=x, y=y, title=title)]: the columns are taken as they are,
    row by row; a label that is no column of the frame is a [ValueError]. *)
Definition px_line (df : DataFrame) (x y title : string) : result Figure :=
  match df_column x (df_data df) with
  | None => Raise (not_a_column "x" df x)
  | Some xs =>
      match df_column y (df_data df) with
      | None => Raise (not_a_column "y" df y)
      | Some ys => Ok {| fig_title := title; fig_x := xs; fig_y := ys |}
      end
  end.

(** main.py, [plot_weather_data]. *)
Definition plot_weather_data (data : pyval) (parameter : string) : result Figure :=
  let? dates := dates_of data in
  let? df := pd_DataFrame dates in
  px_line df "date" "value" (parameter ++ " over time").


(** ** Effects: what the page shows and the remote calls, as a trace *)

(** The HTTP response object of [requests], as far as the code reads it. *)
Record Response : Type :=
  { status_code : Z; reason : string; text : string; url : string }.

(** The map [create_heatmap] builds: the centre and zoom of [folium.Map], the
    radius of the circle at the centre, and the weighted points of the heat
    layer. *)
Record FoliumMap : Type :=
  { map_location : float * float;
    map_zoom_start : Z;
    circle_radius : Z;
    heat_points : list (float * float * pyval);
    heat_radius : Z }.

Inductive event : Type :=
| StWidget (kind label : string)
| StHeader (body : string)
| StSubheader (body : string)
| StWrite (args : list pyval)
| StError (body : string)
| StInfo (body : string)
| StWarning (body : string)
| StMetric (label value : string)
| StPlotlyChart (fig : Figure)
| StFoliumStatic (m : FoliumMap)
| StAudio (data : pyval)
| HttpGet (target : string) (auth : option string * option string)
| GhanaTranslate (key text lang : string)
| GhanaTts (key : string) (text : pyval) (lang : string)
| GroqChat (messages : list (string * string)) (model : string) (temperature : float).

(** Streamlit elements, as opposed to calls to remote services. *)
Definition is_element (ev : event) : bool :=
  match ev with
  | HttpGet _ _ | GhanaTranslate _ _ _ | GhanaTts _ _ _ | GroqChat _ _ _ => false
  | _ => true
  end.

Definition is_http_get (ev : event) : bool :=
  match ev with
  | HttpGet _ _ => true
  | _ => false
  end.

(** The number of network requests to the weather API in a trace. *)
Definition request_count (trace : list event) : nat :=
  length (List.filter is_http_get trace).

(** A computation reads the trace so far and answers with a result and the
    events it adds; an exception keeps the events added before it. *)
Definition IO (A : Type) : Type := list event -> result A * list event.

Definition ret {A} (a : A) : IO A := fun _ => (Ok a, []).

Definition raise {A} (e : exn) : IO A := fun _ => (Raise e, []).

Definition emit (ev : event) : IO unit := fun _ => (Ok tt, [ev]).

Definition bind {A B} (m : IO A) (k : A -> IO B) : IO B :=
  fun history =>
    match m history with
    | (Ok a, out) =>
        match k a (history ++ out)%list with
        | (r, out') => (r, (out ++ out')%list)
        end
    | (Raise e, out) => (Raise e, out)
    end.

(** The body of a [try]: its outcome handed to the [except] clauses. *)
Definition attempt {A} (m : IO A) : IO (result A) :=
  fun history =>
    match m history with
    | (r, out) => (Ok r, out)
    end.

Definition lift_result {A} (r : result A) : IO A := fun _ => (r, []).

Declare Scope io_scope.
Delimit Scope io_scope with io.
Notation "'let!' x ':=' m 'in' k" := (bind m (fun x => k))
  (at level 10, x name, m at level 100, k at level 200) : io_scope.
Notation "m ';;' k" := (bind m (fun _ => k))
  (at level 100, k at level 200, right associativity) : io_scope.
Local Open Scope io_scope.

(** ** main.py: the weather fetcher *)

(** [datetime.date], and [str] of it (ISO format). *)
Record date : Type := { year : Z; month : Z; day : Z }.

Fixpoint zeros (n : nat) : string :=
  match n with
  | O => ""
  | S n => "0" ++ zeros n
  end.

Definition zero_padded (width : nat) (n : Z) : string :=
  let digits := pretty n in
  zeros (width - String.length digits)%nat ++ digits.

Definition str_date (d : date) : string :=
  zero_padded 4 (year d) ++ "-" ++ zero_padded 2 (month d) ++ "-" ++ zero_padded 2 (day d).

(** The arguments of [get_weather_data]. *)
Record Query : Type :=
  { start_date : date; end_date : date; parameters : list string; lat : float; lon : float }.

(** [response.raise_for_status()] of requests. *)
Definition raise_for_status (response : Response) : result unit :=
  let code := status_code response in
  if (400 <=? code) && (code <? 500) then
    Raise (Exn HTTPError (pretty code ++ " Client Error: " ++ reason response
                            ++ " for url: " ++ url response))
  else if (500 <=? code) && (code <? 600) then
    Raise (Exn HTTPError (pretty code ++ " Server Error: " ++ reason response
                            ++ " for url: " ++ url response))
  else Ok tt.

(** The [if]/[elif] chain of the [except] clause: the message shown for a
    status code. *)
Definition status_message (code : Z) : string :=
  if code =? 400 then "Bad request. Please check your input parameters and API credentials."
  else if code =? 401 then "Unauthorized. Please check your API credentials."
  else if code =? 403 then "Forbidden. You may not have permission to access this resource."
  else if code =? 404 then "Not found. The requested resource doesn't exist."
  else "An error occurred: " ++ pretty code.

Section Fetcher.

(** The module globals read from the environment. *)
Context (API_USERNAME API_PASSWORD : option string).
(** [requests.get]: the outcome of the n-th request of the trace, for a URL
    and the credentials passed as [auth]. *)
Context (requests_get : nat -> string -> option string * option string -> result Response).
(** [json.loads] *)
Context (json_loads : string -> result pyval).
(** [str] of a float, as an f-string renders it. *)
Context (str_float : float -> string).

Definition request_url (q : Query) : string :=
  "https://api.meteomatics.com/" ++ str_date (start_date q) ++ "T00:00:00Z--"
    ++ str_date (end_date q) ++ "T00:00:00Z:PT1H/t_2m:C,precip_1h:mm,wind_speed_10m:ms/"
    ++ str_float (lat q) ++ "," ++ str_float (lon q) ++ "/json".

Definition http_get (target : string) (auth : option string * option string) : IO Response :=
  fun history => (requests_get (request_count history) target auth, [HttpGet target auth]).

(** The [except requests.exceptions.RequestException as e] clause.
    [response] is the local variable of that name: bound only once
    [requests.get] has returned. *)
Definition fetch_failed (response : option Response) (e : exn) : IO pyval :=
  emit (StError ("Failed to fetch data: " ++ exn_str e)) ;;
  match response with
  | None =>
      raise (Exn UnboundLocalError
               "cannot access local variable 'response' where it is not associated with a value")
  | Some response =>
      emit (StError (status_message (status_code response))) ;;
      emit (StWrite [PStr "Response content:"; PStr (text response)]) ;;
      ret PNone
  end.

(** main.py, [get_weather_data] without its decorator. *)
Definition get_weather_data_body (q : Query) : IO pyval :=
  let target := request_url q in
  emit (StWrite [PStr ("Requesting data from: " ++ target)]) ;;
  let! got := attempt (http_get target (API_USERNAME, API_PASSWORD)) in
  match got with
  | Raise e => if is_RequestException e then fetch_failed None e else raise e
  | Ok response =>
      match (let? _ := raise_for_status response in json_loads (text response))%res with
      | Ok parsed => ret parsed
      | Raise e => if is_RequestException e then fetch_failed (Some response) e else raise e
      end
  end.

End Fetcher.

(** ** streamlit: [st.cache_data]

    The decorator keeps one entry per argument tuple: the value the function
    returned and the elements it showed, which a later call with the same
    arguments shows again instead of running the function.  A call that
    raises stores nothing. *)

Definition QueryKey : Type := date * date * list string * spec_float * spec_float.

Definition query_key (q : Query) : QueryKey :=
  (start_date q, end_date q, parameters q, Prim2SF (lat q), Prim2SF (lon q)).

Global Instance date_eq_dec : EqDecision date.
Proof. solve_decision. Defined.

Global Instance spec_float_eq_dec : EqDecision spec_float.
Proof. solve_decision. Defined.

Record CacheEntry : Type := { cached_value : pyval; cached_elements : list event }.

Record World : Type :=
  { events : list event; cache : list (QueryKey * CacheEntry) }.

Fixpoint cache_lookup (k : QueryKey) (c : list (QueryKey * CacheEntry)) : option CacheEntry :=
  match c with
  | [] => None
  | (k', entry) :: rest => if decide (k = k') then Some entry else cache_lookup k rest
  end.

Definition Session (A : Type) : Type := World -> result A * World.

Definition st_cache_data (k : QueryKey) (body : IO pyval) : Session pyval :=
  fun w =>
    match cache_lookup k (cache w) with
    | Some entry =>
        (Ok (cached_value entry),
         {| events := (events w ++ cached_elements entry)%list; cache := cache w |})
    | None =>
        match body (events w) with
        | (Ok v, out) =>
            (Ok v,
             {| events := (events w ++ out)%list;
                cache := (k, {| cached_value := v; cached_elements := List.filter is_element out |})
                           :: cache w |})
        | (Raise e, out) => (Raise e, {| events := (events w ++ out)%list; cache := cache w |})
        end
    end.

(** main.py, [get_weather_data] as the module exports it. *)
Definition get_weather_data
    (API_USERNAME API_PASSWORD : option string)
    (requests_get : nat -> string -> option string * option string -> result Response)
    (json_loads : string -> result pyval) (str_float : float -> string)
    (q : Query) : Session pyval :=
  st_cache_data (query_key q)
    (get_weather_data_body API_USERNAME API_PASSWORD requests_get json_loads str_float q).

(** ** Sessions: computations that also read and fill the cache *)

Definition run_io {A} (m : IO A) : Session A :=
  fun w =>
    match m (events w) with
    | (r, out) => (r, {| events := (events w ++ out)%list; cache := cache w |})
    end.

Definition sbind {A B} (m : Session A) (k : A -> Session B) : Session B :=
  fun w =>
    match m w with
    | (Ok a, w') => k a w'
    | (Raise e, w') => (Raise e, w')
    end.

Declare Scope session_scope.
Delimit Scope session_scope with session.
Notation "'let*' x ':=' m 'in' k" := (sbind m (fun x => k))
  (at level 10, x name, m at level 100, k at level 200) : session_scope.
Notation "m '>>' k" := (sbind m (fun _ => k))
  (at level 100, k at level 200, right associativity) : session_scope.

(** ** agent.py: the narrative summarizer *)

(** The completion object, as far as the code reads it: the content of the
    message of each choice, a str or None. *)
Record ChatCompletion : Type := { choices : list pyval }.

Definition prompt : string := "
        Analyze the weather data provided with the following parameters:
        - Temperature (°C) at 2 meters above ground
        - Precipitation (mm) during the last hour
        - Wind speed (m/s) at 10 meters

        Focus on identifying trends and patterns that could affect weather conditions over the specified period. Based on the historical data and current values, predict the likelihood of rainfall and potential weather changes. Provide a detailed explanation of the prediction, highlighting the most influential factors and their impact on the result.

        The output should include:
        1. A concise summary of weather trends.
        2. A probability assessment for rainfall.
        3. Recommendations for the user based on predicted weather conditions.
        4. A visual representation of the data (plot/graph) showing temperature, precipitation, and wind speed trends over time.
        ".

Definition is_groq_chat (ev : event) : bool :=
  match ev with
  | GroqChat _ _ _ => true
  | _ => false
  end.

Section Agent.

(** [client.chat.completions.create]: the outcome of the n-th call. *)
Context (chat_completions_create :
           nat -> list (string * string) -> string -> float -> result ChatCompletion).
(** [str] of the payload, as the f-string renders it. *)
Context (str_payload : pyval -> string).

Definition groq_chat (messages : list (string * string)) (model : string) (temperature : float)
  : IO ChatCompletion :=
  fun history =>
    (chat_completions_create (length (List.filter is_groq_chat history)) messages model temperature,
     [GroqChat messages model temperature]).

(** [responder.choices[0].message.content] *)
Definition first_message_content (responder : ChatCompletion) : result pyval :=
  match choices responder with
  | content :: _ => Ok content
  | [] => Raise (Exn IndexError "list index out of range")
  end.

(** agent.py, [analyze_weather_data]. *)
Definition analyze_weather_data (data : pyval) : IO pyval :=
  let! got :=
    attempt
      (let! responder :=
         groq_chat [("system", prompt); ("user", "Data input: " ++ str_payload data)]
           "mixtral-8x7b-32768" 0.5%float in
       let! message := lift_result (first_message_content responder) in
       ret message) in
  match got with
  | Ok message => ret message
  | Raise e =>
      if is_Exception e
      then ret (PStr ("An error occurred during the AI analysis: " ++ exn_str e
                        ++ ". Please check your internet connection or API key."))
      else raise e
  end.

End Agent.

(** ** Module initialisation: what runs when the process starts *)

Record GroqClient : Type := { client_api_key : string }.

(** The globals of the two modules once both are loaded. *)
Record Globals : Type :=
  { API_USERNAME : option string;
    API_PASSWORD : option string;
    KEY : option string;
    client : GroqClient }.

Section Startup.

(** [os.getenv], after [dotenv.load_dotenv()]. *)
Context (getenv : string -> option string).
(** The constructor [Groq(api_key=...)]. *)
Context (Groq : option string -> result GroqClient).

(** agent.py, module level. *)
Definition agent_module : result (option string * GroqClient) :=
  let KEY := getenv "GROQ_API_KEY" in
  let? client := Groq KEY in
  Ok (KEY, client).

(** main.py, module level: [from agent import analyze_weather_data] runs
    agent.py first; the two credentials are read and bound as they are. *)
Definition main_module : result Globals :=
  let? agent := agent_module in
  let API_USERNAME := getenv "API_USERNAME" in
  let API_PASSWORD := getenv "API_PASSWORD" in
  Ok {| API_USERNAME := API_USERNAME; API_PASSWORD := API_PASSWORD;
        KEY := fst agent; client := snd agent |}.

End Startup.

(** The constructor of the groq package: with no key given and none in the
    environment it raises. *)
Definition Groq_sdk (api_key : option string) : result GroqClient :=
  match api_key with
  | Some k => Ok {| client_api_key := k |}
  | None =>
      Raise (Exn GroqError
               "The api_key client option must be set either by passing api_key to the client or by setting the GROQ_API_KEY environment variable")
  end.

(** ** main.py: the heatmap and the rainfall prediction page *)

(** The values Python and numpy take as numbers: an int, a float, a bool. *)
Definition is_comparable (v : pyval) : bool :=
  match v with
  | PInt _ | PFloat _ | PBool _ => true
  | _ => false
  end.

(** [folium.Map(location=[lat, lon])] checks its location: no NaN. *)
Definition validate_location (lat lon : float) : result unit :=
  if is_nan lat || is_nan lon
  then Raise (Exn ValueError "Location values cannot contain NaNs.")
  else Ok tt.

Definition is_nan_cell (v : pyval) : bool :=
  match v with PFloat f => is_nan f | _ => false end.

Definition is_list_cell (v : pyval) : bool :=
  match v with PList _ => true | _ => false end.

(** An int that [float] cannot hold. *)
Definition overflows_float64 (v : pyval) : bool :=
  match v with PInt z => is_infinity (float_of_int z) | _ => false end.

(** [folium.plugins.HeatMap(data)] tests its rows with
    [np.isnan(self.data)], which first makes one array of them.  Beside the
    two float coordinates of each row, a weight that is a list gives rows of
    no common shape ([ValueError]); a None, a str or a dict gives an array
    [isnan] does not apply to ([TypeError]); an int beyond the floats does
    not convert ([OverflowError]); and a NaN among numbers is refused by
    [HeatMap] itself ([ValueError]). *)
Definition validate_heat_data (weights : list pyval) : result unit :=
  if existsb is_list_cell weights
  then Raise (Exn ValueError
                "setting an array element with a sequence. The requested array has an inhomogeneous shape after 2 dimensions.")
  else if existsb (fun v => negb (is_comparable v)) weights
  then Raise (Exn TypeError "ufunc 'isnan' not supported for the input types")
  else if existsb overflows_float64 weights
  then Raise (Exn OverflowError "int too large to convert to float")
  else if existsb is_nan_cell weights
  then Raise (Exn ValueError "data may not contain NaNs.")
  else Ok tt.


(** main.py, [create_heatmap]. *)
Definition create_heatmap (data : pyval) (lat lon : float) : result FoliumMap :=
  let? precip := precip_data data in
  let? _ := validate_location lat lon in
  let? _ := validate_heat_data precip in
  Ok {| map_location := (lat, lon);
        map_zoom_start := 10;
        circle_radius := 1000;
        heat_points := map (fun v => (lat, lon, v)) precip;
        heat_radius := 20 |}.

(** Truth value of a payload in [if data:]. *)
Definition py_truthy (v : pyval) : bool :=
  match v with
  | PNone => false
  | PBool b => b
  | PInt z => negb (z =? 0)
  | PFloat f => negb (f =? 0)%float
  | PStr s => negb (String.eqb s "")
  | PList l => match l with [] => false | _ => true end
  | PDict kv => match kv with [] => false | _ => true end
  end.

(** [str] of a global that may be None. *)
Definition str_optional (o : option string) : string :=
  match o with
  | Some s => s
  | None => "None"
  end.

Definition rain_advisory : string :=
  "Rainfall is expected in the coming days. Consider adjusting your irrigation schedule and preparing for potential water accumulation.".

Definition dry_advisory : string :=
  "No significant rainfall is expected. Ensure your crops have adequate irrigation and consider water conservation measures.".

(** What the user entered on the page. [ghana_key] is the text of the key
    field: empty when the user supplies no key. *)
Record PageInputs : Type :=
  { ghana_key : string;
    in_lat : float;
    in_lon : float;
    in_start_date : date;
    in_end_date : date;
    predict_pressed : bool }.

Section Page.

Context (API_USERNAME API_PASSWORD : option string).
Context (requests_get : nat -> string -> option string * option string -> result Response).
Context (json_loads : string -> result pyval).
Context (str_float : float -> string).
Context (chat_completions_create :
           nat -> list (string * string) -> string -> float -> result ChatCompletion).
Context (str_payload : pyval -> string).
(** [GhanaNLP(key).translate(text, pair)] and [GhanaNLP(key).tts(text, lang)]. *)
Context (translate : string -> string -> string -> result pyval).
Context (tts : string -> pyval -> string -> result pyval).
(** [st.audio(data)]: whether streamlit accepts the data. *)
Context (st_audio : pyval -> result unit).
(** [np.random.randint(70, 100)] *)
Context (confidence : Z).

Local Open Scope session_scope.

Definition say (ev : event) : Session unit := run_io (emit ev).

Definition of_result {A} (r : result A) : Session A := run_io (lift_result r).

(** [st.audio(api.tts(api.translate(text, "en-tw"), "tw"))] *)
Definition speak (key text : string) : Session unit :=
  say (GhanaTranslate key text "en-tw") >>
  let* translated := of_result (translate key text "en-tw") in
  say (GhanaTts key translated "tw") >>
  let* audio := of_result (tts key translated "tw") in
  let* _ := of_result (st_audio audio) in
  say (StAudio audio).

(** main.py, [main], the branch of the page "Rainfall Prediction". *)
Definition rainfall_prediction_page (inp : PageInputs) : Session unit :=
  say (StHeader "Rainfall Prediction 🌧️") >>
  say (StWrite [PStr "For language support in Ghanaian languages"]) >>
  say (StWidget "text_input" "Enter your GhanaNLP API key (optional)") >>
  let key := ghana_key inp in
  say (StWrite [PStr "Enter your location and select the date range to predict rainfall in your area."]) >>
  say (StWidget "number_input" "Latitude 🌐") >>
  say (StWidget "date_input" "Start Date 📅") >>
  say (StWidget "number_input" "Longitude 🌐") >>
  say (StWidget "date_input" "End Date 📅") >>
  say (StWidget "button" "Predict Rainfall 🔮") >>
  if predict_pressed inp then
    say (StWrite [PStr ("API Username: " ++ str_optional API_USERNAME)]) >>
    let* data :=
      get_weather_data API_USERNAME API_PASSWORD requests_get json_loads str_float
        {| start_date := in_start_date inp; end_date := in_end_date inp;
           parameters := ["precip_1h:mm"; "t_2m:C"];
           lat := in_lat inp; lon := in_lon inp |} in
    if py_truthy data then
      let* rainfall_predicted := of_result (predict_rainfall data) in
      say (StSubheader "Rainfall Prediction Results 📊") >>
      say (StMetric "Rainfall Prediction" (if rainfall_predicted then "Rain ☔" else "No Rain ☀️")) >>
      say (StMetric "Prediction Confidence" (pretty confidence ++ "%")) >>
      say (StSubheader "Weather Visualization 📈") >>
      let* chart := of_result (plot_weather_data data "Precipitation (mm)") in
      say (StPlotlyChart chart) >>
      let* chart := of_result (plot_weather_data data "Temperature (°C)") in
      say (StPlotlyChart chart) >>
      say (StWrite [PStr "Precipitation Heatmap"]) >>
      let* heatmap := of_result (create_heatmap data (in_lat inp) (in_lon inp)) in
      say (StFoliumStatic heatmap) >>
      say (StSubheader "Farmer's Insight 🌾") >>
      (if rainfall_predicted
       then say (StInfo rain_advisory) >> speak key rain_advisory
       else say (StWarning dry_advisory) >> speak key dry_advisory) >>
      let* ai_insight := run_io (analyze_weather_data chat_completions_create str_payload data) in
      say (StSubheader "AI-Powered Insight 💡") >>
      say (StWrite [ai_insight])
    else run_io (ret tt)
  else run_io (ret tt).

End Page.

(** The invariant of the cache: an entry replays streamlit elements only,
    never a remote call. *)
Definition cache_holds_elements (w : World) : Prop :=
  Forall (fun kv => forallb is_element (cached_elements (snd kv)) = true) (cache w).

(** A call of the translation service made with the given key. *)
Definition is_translate_call (key : string) (ev : event) : bool :=
  match ev with
  | GhanaTranslate k _ _ => String.eqb k key
  | _ => false
  end.

(** A call of the speech service made with the given key. *)
Definition is_tts_call (key : string) (ev : event) : bool :=
  match ev with
  | GhanaTts k _ _ => String.eqb k key
  | _ => false
  end.

(** The request of the AI insight, or its heading on the page. *)
Definition shows_ai_insight (ev : event) : bool :=
  match ev with
  | GroqChat _ _ _ => true
  | StSubheader body => String.eqb body "AI-Powered Insight 💡"
  | _ => false
  end.

(** ** Further vocabulary for the properties below *)



(** The world after some more events, the cache as it was. *)
Definition shown (w : World) (evs : list event) : World :=
  {| events := events w ++ evs; cache := cache w |}.

(** What the page "Rainfall Prediction" shows before it looks at the button. *)
Definition form_events : list event :=
  [ StHeader "Rainfall Prediction 🌧️";
    StWrite [PStr "For language support in Ghanaian languages"];
    StWidget "text_input" "Enter your GhanaNLP API key (optional)";
    StWrite [PStr "Enter your location and select the date range to predict rainfall in your area."];
    StWidget "number_input" "Latitude 🌐";
    StWidget "date_input" "Start Date 📅";
    StWidget "number_input" "Longitude 🌐";
    StWidget "date_input" "End Date 📅";
    StWidget "button" "Predict Rainfall 🔮" ].

(** The arguments the page passes to [get_weather_data]. *)
Definition page_query (inp : PageInputs) : Query :=
  {| start_date := in_start_date inp; end_date := in_end_date inp;
     parameters := ["precip_1h:mm"; "t_2m:C"];
     lat := in_lat inp; lon := in_lon inp |}.

(** A step of a session that sends no request to the weather API and leaves
    the cache as it is. *)
Definition adds_no_request {A} (m : Session A) : Prop :=
  forall w : World,
    cache (snd (m w)) = cache w
    /\ List.filter is_http_get (events (snd (m w))) = List.filter is_http_get (events w).

Section PageParts.

Context (chat_completions_create :
           nat -> list (string * string) -> string -> float -> result ChatCompletion).
Context (str_payload : pyval -> string).
Context (translate : string -> string -> string -> result pyval).
Context (tts : string -> pyval -> string -> result pyval).
Context (st_audio : pyval -> result unit).
Context (confidence : Z).

Local Open Scope session_scope.

(** The part of the page that runs on a payload, once the fetch has returned
    one: main.py, lines 112 to 144. *)
Definition page_results (inp : PageInputs) (data : pyval) : Session unit :=
  let* rainfall_predicted := of_result (predict_rainfall data) in
  say (StSubheader "Rainfall Prediction Results 📊") >>
  say (StMetric "Rainfall Prediction" (if rainfall_predicted then "Rain ☔" else "No Rain ☀️")) >>
  say (StMetric "Prediction Confidence" (pretty confidence ++ "%")) >>
  say (StSubheader "Weather Visualization 📈") >>
  let* chart := of_result (plot_weather_data data "Precipitation (mm)") in
  say (StPlotlyChart chart) >>
  let* chart := of_result (plot_weather_data data "Temperature (°C)") in
  say (StPlotlyChart chart) >>
  say (StWrite [PStr "Precipitation Heatmap"]) >>
  let* heatmap := of_result (create_heatmap data (in_lat inp) (in_lon inp)) in
  say (StFoliumStatic heatmap) >>
  say (StSubheader "Farmer's Insight 🌾") >>
  (if rainfall_predicted
   then say (StInfo rain_advisory) >> speak translate tts st_audio (ghana_key inp) rain_advisory
   else say (StWarning dry_advisory) >> speak translate tts st_audio (ghana_key inp) dry_advisory) >>
  let* ai_insight := run_io (analyze_weather_data chat_completions_create str_payload data) in
  say (StSubheader "AI-Powered Insight 💡") >>
  say (StWrite [ai_insight]).

End PageParts.

(** A [datetime.date] holds a year from 1 to 9999, a month from 1 to 12 and
    a day from 1 to 31. *)
Definition valid_date (d : date) : Prop :=
  1 <= year d <= 9999 /\ 1 <= month d <= 12 /\ 1 <= day d <= 31.

(** The number a string of decimal digits stands for, to read a rendered
    date back. *)
Definition digit_value (c : Ascii.ascii) : option Z :=
  let n := Z.of_nat (Ascii.nat_of_ascii c) in
  if (48 <=? n) && (n <=? 57) then Some (n - 48) else None.

Fixpoint digits_value (acc : Z) (s : string) : option Z :=
  match s with
  | EmptyString => Some acc
  | String c rest =>
      match digit_value c with
      | Some v => digits_value (10 * acc + v) rest
      | None => None
      end
  end.

(** The rendering of [n] in [width] digits reads back as [n] and has that
    width. *)
Definition renders_back (width : nat) (n : nat) : bool :=
  match digits_value 0 (zero_padded width (Z.of_nat n)) with
  | Some v => (v =? Z.of_nat n) && (String.length (zero_padded width (Z.of_nat n)) =? width)%nat
  | None => false
  end.

(** ** Vocabulary of the claims on the chart and on the classifier *)




Definition is_block_of (name : string) (b : pyval) : bool :=
  match b with
  | PDict kv =>
      match dict_get "parameter" kv with
      | Some (PStr s) => String.eqb s name
      | _ => false
      end
  | _ => false
  end.

(** The precipitation series as the specification means it: the values of
    the block of the payload whose parameter is precip_1h:mm. *)
Definition precipitation_series (data : pyval) : result (list pyval) :=
  let? d := subscript_key data "data" in
  let? blocks := py_iter d in
  match List.find (is_block_of "precip_1h:mm") blocks with
  | Some b =>
      let? cs := subscript_key b "coordinates" in
      let? c := subscript_0 cs in
      let? dates := subscript_key c "dates" in
      let? items := py_iter dates in
      list_comprehension (fun item => subscript_key item "value") items
  | None => Raise (Exn KeyError "'precip_1h:mm'")
  end.

Definition samples (l : list (string * pyval)) : list pyval :=
  map (fun dv => sample (fst dv) (snd dv)) l.

(** The answer of the weather API to the URL of [get_weather_data]: one block
    per parameter of the URL, in the order of the URL. *)
Definition answer_in_url_order (lat lon : float) (temps precs winds : list (string * pyval))
  : pyval :=
  payload [ block "t_2m:C" lat lon (samples temps);
            block "precip_1h:mm" lat lon (samples precs);
            block "wind_speed_10m:ms" lat lon (samples winds) ].

(** ** Concrete surroundings for examples *)

(** [str] on the two default coordinates of the page. *)
Definition str_float_defaults (f : float) : string :=
  if (f =? 0x1.a42a16a487336p+5)%float then "52.520551"
  else if (f =? 0x1.aec7192ea52f0p+3)%float then "13.461804"
  else "nan".

Definition default_query : Query :=
  {| start_date := {| year := 2024; month := 10; day := 5 |};
     end_date := {| year := 2024; month := 10; day := 12 |};
     parameters := ["precip_1h:mm"; "t_2m:C"];
     lat := 0x1.a42a16a487336p+5%float;
     lon := 0x1.aec7192ea52f0p+3%float |}.

(** No route to the host: [requests.get] raises and returns no response. *)
Definition network_down (msg : string)
  : nat -> string -> option string * option string -> result Response :=
  fun _ _ _ => Raise (Exn ConnectionError msg).

(** The server answers every request with the given status and body. *)
Definition server_answers (code : Z) (why body : string)
  : nat -> string -> option string * option string -> result Response :=
  fun _ target _ => Ok {| status_code := code; reason := why; text := body; url := target |}.

(** [json.loads] on a body that is not JSON. *)
Definition loads_fails : string -> result pyval :=
  fun _ => Raise (Exn JSONDecodeError "Expecting value: line 1 column 1 (char 0)").

(** [json.loads] on the body of the fixture response. *)
Definition loads_fixture : string -> result pyval := fun _ => Ok fixture.

Definition fresh_session : World := {| events := []; cache := [] |}.

(** Two hours at 12.0 and 11.5 degrees, without any rain, wind 3.5 m/s. *)
Definition mild_dry_answer : pyval :=
  answer_in_url_order 0x1.a42a16a487336p+5%float 0x1.aec7192ea52f0p+3%float
    [ ("2024-10-05T00:00:00Z", PFloat 0x1.8p+3%float);
      ("2024-10-05T01:00:00Z", PFloat 0x1.7p+3%float) ]
    [ ("2024-10-05T00:00:00Z", PFloat 0x0p+0%float);
      ("2024-10-05T01:00:00Z", PFloat 0x0p+0%float) ]
    [ ("2024-10-05T00:00:00Z", PFloat 0x1.cp+1%float);
      ("2024-10-05T01:00:00Z", PFloat 0x1.cp+1%float) ].


(** A server whose answer changes after the first request. *)
Definition server_updates
  : nat -> string -> option string * option string -> result Response :=
  fun n target _ =>
    Ok {| status_code := 200; reason := "OK";
          text := if Nat.eqb n 0 then "[]" else "{}"; url := target |}.

(** [json.loads] on the two bodies of [server_updates]. *)
Definition loads_small (s : string) : result pyval :=
  if String.eqb s "[]" then Ok (PList [])
  else if String.eqb s "{}" then Ok (PDict [])
  else Raise (Exn JSONDecodeError "Expecting value: line 1 column 1 (char 0)").

(** [default_query] with another value of [parameters]. *)
Definition wind_query : Query :=
  {| start_date := start_date default_query; end_date := end_date default_query;
     parameters := ["wind_speed_10m:ms"];
     lat := lat default_query; lon := lon default_query |}.

(** The session after one call of [get_weather_data] on [default_query]. *)
Definition session_after_first_fetch : World :=
  snd (get_weather_data (Some "user") (Some "secret") server_updates loads_small
         str_float_defaults default_query fresh_session).

(** The environment with the LLM key only. *)
Definition env_without_weather_credentials (name : string) : option string :=
  if String.eqb name "GROQ_API_KEY" then Some "gsk_example" else None.

(** The page as submitted with the key field left empty. *)
Definition inputs_without_ghana_key : PageInputs :=
  {| ghana_key := "";
     in_lat := 0x1.a42a16a487336p+5%float;
     in_lon := 0x1.aec7192ea52f0p+3%float;
     in_start_date := {| year := 2024; month := 10; day := 5 |};
     in_end_date := {| year := 2024; month := 10; day := 12 |};
     predict_pressed := true |}.

(** * Proofs *)

Lemma py_any_gt_half_numbers (vs : list pyval) :
  Forall is_number vs ->
  exists b, py_any gt_half vs = Ok b /\ (b = true <-> Exists exceeds_half vs).
Proof.
  induction 1 as [|v vs Hv _ IH].
  - exists false. split; [reflexivity|]. split; [discriminate|].
    intros H. inversion H.
  - destruct IH as (b & Hb & Hiff).
    destruct v as [| |z|f| | |]; try contradiction; cbn [py_any gt_half rbind].
    + destruct (Z.leb_spec 1 z) as [Hz|Hz].
      * exists true. split; [reflexivity|]. split; [|reflexivity].
        intros _. left. cbn. lia.
      * exists b. split; [exact Hb|]. rewrite Hiff. split.
        -- intros H. now right.
        -- intros H. inversion H as [? ? H1|? ? H1]; subst; [cbn in H1; lia|exact H1].
    + destruct (0.5 <? f)%float eqn:Hf.
      * exists true. split; [reflexivity|]. split; [|reflexivity].
        intros _. left. exact Hf.
      * exists b. split; [exact Hb|]. rewrite Hiff. split.
        -- intros H. now right.
        -- intros H. inversion H as [? ? H1|? ? H1]; subst; [|exact H1].
           cbn in H1. congruence.
Qed.

(** On floats, [f <= 0.5] excludes [0.5 < f]. *)
Lemma float_le_half_not_gt (f : float) :
  (f <=? 0.5)%float = true -> (0.5 <? f)%float = false.
Proof.
  rewrite leb_spec, ltb_spec.
  change (Prim2SF 0.5%float) with (S754_finite false 4503599627370496 (-53)).
  unfold SFleb, SFltb.
  generalize 4503599627370496%positive as h. intros h.
  destruct (Prim2SF f) as [s|s| |s m e]; cbv [SFcompare];
    try (intros; reflexivity); try (now destruct s).
  destruct s; [reflexivity|].
  destruct (Z.compare_spec e (-53)) as [He|He|He].
  - subst e. rewrite Z.compare_refl.
    rewrite !Pos.compare_cont_spec. cbv [Pos.switch_Eq].
    rewrite (Pos.compare_antisym m h).
    destruct (Pos.compare m h); cbv [CompOpp]; congruence.
  - rewrite (proj2 (Z.compare_gt_iff (-53) e)) by lia. reflexivity.
  - discriminate.
Qed.

Lemma at_most_half_not_exceeds (v : pyval) : at_most_half v -> ~ exceeds_half v.
Proof.
  destruct v as [| |z|f| | |]; cbn; try tauto.
  - lia.
  - intros H. rewrite (float_le_half_not_gt f H). discriminate.
Qed.

Lemma at_most_half_is_number (v : pyval) : at_most_half v -> is_number v.
Proof. destruct v; cbn; tauto. Qed.

(** ** The rainfall classifier *)

(** The threshold on the series the function extracts: when [precip_data] is
    a list of numbers, [predict_rainfall] returns (it raises nothing), and it
    returns true if and only if some sample of that series exceeds 0.5; in
    particular it returns false when every sample is at most 0.5. *)
Lemma predict_rainfall_true_iff_some_sample_exceeds (data : pyval) (vs : list pyval) :
  precip_data data = Ok vs ->
  Forall is_number vs ->
  exists b, predict_rainfall data = Ok b
            /\ (b = true <-> Exists exceeds_half vs)
            /\ (Forall at_most_half vs -> b = false).
Proof.
  intros Hvs Hnum.
  destruct (py_any_gt_half_numbers vs Hnum) as (b & Hb & Hiff).
  exists b. split; [|split].
  - unfold predict_rainfall. rewrite Hvs. exact Hb.
  - exact Hiff.
  - intros Hall. destruct b; [|reflexivity].
    exfalso.
    assert (Hex : Exists exceeds_half vs) by (apply Hiff; reflexivity).
    apply Exists_exists in Hex. destruct Hex as (v & Hin & Hv).
    rewrite Forall_forall in Hall.
    exact (at_most_half_not_exceeds v (Hall v Hin) Hv).
Qed.

Lemma predict_rainfall_true_iff_some_sample_exceeds_witness :
  exists b, predict_rainfall fixture = Ok b
            /\ (b = true <->
                Exists exceeds_half
                  [PFloat 0x0p+0%float; PFloat 0x1.999999999999ap-3%float;
                   PFloat 0x1.3333333333333p-1%float; PFloat 0x1.999999999999ap-4%float])
            /\ (Forall at_most_half
                  [PFloat 0x0p+0%float; PFloat 0x1.999999999999ap-3%float;
                   PFloat 0x1.3333333333333p-1%float; PFloat 0x1.999999999999ap-4%float]
                -> b = false).
Proof.
  apply (predict_rainfall_true_iff_some_sample_exceeds fixture).
  - reflexivity.
  - repeat constructor.
Defined.

(** The fixture of the spec is classified as rain. *)
Example predict_rainfall_fixture : predict_rainfall fixture = Ok true.
Proof. reflexivity. Qed.

(** [any] stops at the first sample above the threshold: what follows it is
    never compared. *)
Example predict_rainfall_short_circuit :
  predict_rainfall
    (payload [block "precip_1h:mm" 0%float 0%float
                [sample "a" (PFloat 0x1.3333333333333p-1%float); sample "b" PNone]])
  = Ok true.
Proof. reflexivity. Qed.

(** The series is the one of the first block of the payload, whatever
    parameter that block carries. *)
Example predict_rainfall_reads_first_block : predict_rainfall dry_mild_day = Ok true.
Proof. reflexivity. Qed.

Lemma list_comprehension_values (l : list (string * pyval)) :
  list_comprehension (fun item => subscript_key item "value") (samples l) = Ok (map snd l).
Proof.
  induction l as [|[d v] l IH]; [reflexivity|].
  unfold samples in *. cbn [map list_comprehension fst snd].
  rewrite IH. reflexivity.
Qed.

(** C1 (the code departs from it): the series [predict_rainfall] extracts is
    the one of the first block of the payload, and the URL of
    [get_weather_data] asks for t_2m:C first.  On the answer to that URL the
    extracted series is the temperatures, not the precipitation samples, and
    the function returns what the threshold gives on the temperatures,
    whatever the precipitation is; after two hours at 12.0 and 11.5 degrees
    without any rain it returns true, although every precipitation sample is
    at most 0.5. *)
Theorem predict_rainfall_reads_the_temperature :
  (forall (la lo : float) (temps precs winds : list (string * pyval)),
      precipitation_series (answer_in_url_order la lo temps precs winds) = Ok (map snd precs)
      /\ precip_data (answer_in_url_order la lo temps precs winds) = Ok (map snd temps)
      /\ predict_rainfall (answer_in_url_order la lo temps precs winds)
         = py_any gt_half (map snd temps))
  /\ precipitation_series mild_dry_answer = Ok [PFloat 0x0p+0%float; PFloat 0x0p+0%float]
  /\ Forall at_most_half [PFloat 0x0p+0%float; PFloat 0x0p+0%float]
  /\ predict_rainfall mild_dry_answer = Ok true.
Proof.
  split; [|split; [reflexivity|split; [repeat constructor|reflexivity]]].
  intros la lo temps precs winds.
  assert (Hs : precip_data (answer_in_url_order la lo temps precs winds) = Ok (map snd temps)).
  { unfold precip_data, dates_of, answer_in_url_order, payload, block. cbn.
    apply list_comprehension_values. }
  split; [|split; [exact Hs|]].
  - unfold precipitation_series, answer_in_url_order, payload, block. cbn.
    apply list_comprehension_values.
  - unfold predict_rainfall. rewrite Hs. reflexivity.
Qed.

(** C7: when the series of the payload is empty, [predict_rainfall] returns
    false; it raises nothing. *)
Theorem predict_rainfall_empty_series (data : pyval) :
  dates_of data = Ok (PList []) ->
  predict_rainfall data = Ok false.
Proof.
  intros H. unfold predict_rainfall, precip_data. rewrite H. reflexivity.
Qed.

Lemma predict_rainfall_empty_series_witness :
  predict_rainfall empty_fixture = Ok false.
Proof.
  apply (predict_rainfall_empty_series empty_fixture). reflexivity.
Defined.

(** ** The line chart *)

Lemma as_records_dicts (recs : list (list (string * pyval))) :
  as_records (map PDict recs) = Some recs.
Proof.
  induction recs as [|r recs IH]; cbn; [reflexivity|].
  rewrite IH. reflexivity.
Qed.

Lemma existsb_eqb_In (k : string) (l : list string) :
  existsb (String.eqb k) l = true <-> In k l.
Proof.
  rewrite existsb_exists. split.
  - intros (x & Hin & Heq). apply String.eqb_eq in Heq. now subst.
  - intros Hin. exists k. split; [exact Hin|apply String.eqb_refl].
Qed.

Lemma In_fold_add_key (k : string) (ks acc : list string) :
  In k (fold_left add_key ks acc) <-> In k acc \/ In k ks.
Proof.
  revert acc. induction ks as [|k' ks IH]; intros acc; cbn [fold_left].
  - cbn. tauto.
  - rewrite IH. unfold add_key.
    destruct (existsb (String.eqb k') acc) eqn:Hmem.
    + apply existsb_eqb_In in Hmem. cbn. split; [tauto|].
      intros [H|[H|H]]; subst; tauto.
    + rewrite in_app_iff. cbn. tauto.
Qed.

Lemma dict_get_In_keys (k : string) (r : list (string * pyval)) :
  dict_get k r <> None -> In k (map fst r).
Proof.
  induction r as [|[k' v] r IH]; cbn; [congruence|].
  destruct (String.eqb k k') eqn:Hk.
  - apply String.eqb_eq in Hk. subst. now left.
  - intros H. right. now apply IH.
Qed.

Lemma df_column_of_columns (c : string) (g : string -> list pyval) (cols : list string) :
  df_column c (map (fun c' => (c', g c')) cols)
  = if existsb (String.eqb c) cols then Some (g c) else None.
Proof.
  induction cols as [|c' cols IH]; cbn; [reflexivity|].
  destruct (String.eqb c c') eqn:Hc.
  - apply String.eqb_eq in Hc. now subst.
  - exact IH.
Qed.


Lemma plot_weather_data_records (data : pyval) (parameter : string)
      (recs : list (list (string * pyval))) :
  dates_of data = Ok (PList (map PDict recs)) ->
  plot_weather_data data parameter
  = if existsb (String.eqb "date") (frame_columns recs)
    then if existsb (String.eqb "value") (frame_columns recs)
         then Ok {| fig_title := parameter ++ " over time";
                    fig_x := infer_column (map (cell "date") recs);
                    fig_y := infer_column (map (cell "value") recs) |}
         else Raise (not_a_column "y"
                       {| df_length := length recs;
                          df_data := map (fun c => (c, infer_column (map (cell c) recs)))
                                       (frame_columns recs) |}
                       "value")
    else Raise (not_a_column "x"
                  {| df_length := length recs;
                     df_data := map (fun c => (c, infer_column (map (cell c) recs)))
                                  (frame_columns recs) |}
                  "date").
Proof.
  intros Hd. unfold plot_weather_data. rewrite Hd. cbn [rbind pd_DataFrame].
  rewrite as_records_dicts. cbn [rbind]. unfold px_line. cbn [df_data].
  rewrite !(df_column_of_columns _ (fun c => infer_column (map (cell c) recs))).
  destruct (existsb (String.eqb "date") (frame_columns recs)); [|reflexivity].
  destruct (existsb (String.eqb "value") (frame_columns recs)); reflexivity.
Qed.

Lemma key_of_some_record_is_column (k : string) (recs : list (list (string * pyval))) :
  Exists (fun r => dict_get k r <> None) recs ->
  existsb (String.eqb k) (frame_columns recs) = true.
Proof.
  intros Hex. apply existsb_eqb_In. unfold frame_columns.
  apply In_fold_add_key. right.
  apply List.Exists_exists in Hex. destruct Hex as (r & Hin & Hk).
  apply in_concat. exists (map fst r). split.
  - apply in_map. exact Hin.
  - apply dict_get_In_keys. exact Hk.
Qed.







(** ** The weather fetcher *)

Section FetcherFacts.

Context (API_USERNAME API_PASSWORD : option string).
Context (requests_get : nat -> string -> option string * option string -> result Response).
Context (json_loads : string -> result pyval).
Context (str_float : float -> string).

Local Abbreviation body :=
  (get_weather_data_body API_USERNAME API_PASSWORD requests_get json_loads str_float).
Local Abbreviation target := (request_url str_float).

Lemma request_count_app (h1 h2 : list event) :
  request_count (h1 ++ h2) = (request_count h1 + request_count h2)%nat.
Proof. unfold request_count. rewrite List.filter_app, List.length_app. reflexivity. Qed.

(** The function body, case by case on what the network does. *)
Lemma get_weather_data_body_cases (q : Query) (h : list event) :
  body q h =
  let shown := StWrite [PStr ("Requesting data from: " ++ target q)] in
  let sent := HttpGet (target q) (API_USERNAME, API_PASSWORD) in
  match requests_get (request_count h) (target q) (API_USERNAME, API_PASSWORD) with
  | Raise e =>
      if is_RequestException e
      then (Raise (Exn UnboundLocalError
                     "cannot access local variable 'response' where it is not associated with a value"),
            [shown; sent; StError ("Failed to fetch data: " ++ exn_str e)])
      else (Raise e, [shown; sent])
  | Ok response =>
      match (let? _ := raise_for_status response in json_loads (text response))%res with
      | Ok parsed => (Ok parsed, [shown; sent])
      | Raise e =>
          if is_RequestException e
          then (Ok PNone,
                [shown; sent; StError ("Failed to fetch data: " ++ exn_str e);
                 StError (status_message (status_code response));
                 StWrite [PStr "Response content:"; PStr (text response)]])
          else (Raise e, [shown; sent])
      end
  end.
Proof.
  unfold get_weather_data_body, bind, attempt, http_get, emit. cbn zeta.
  rewrite request_count_app. cbn [request_count List.filter is_http_get length Nat.add].
  rewrite Nat.add_0_r.
  destruct (requests_get _ _ _) as [response|e].
  - destruct (let? _ := raise_for_status response in json_loads (text response))%res as [v|e].
    + reflexivity.
    + destruct (is_RequestException e); reflexivity.
  - destruct (is_RequestException e); reflexivity.
Qed.

Lemma raise_for_status_error (response : Response) :
  400 <= status_code response < 600 ->
  exists msg, raise_for_status response = Raise (Exn HTTPError msg).
Proof.
  intros Hcode. unfold raise_for_status.
  destruct ((400 <=? status_code response) && (status_code response <? 500)) eqn:H4.
  - eexists. reflexivity.
  - destruct ((500 <=? status_code response) && (status_code response <? 600)) eqn:H5.
    + eexists. reflexivity.
    + exfalso. rewrite andb_false_iff, Z.leb_gt, Z.ltb_ge in H4, H5. lia.
Qed.

End FetcherFacts.

Lemma status_message_other (code : Z) :
  code <> 400 -> code <> 401 -> code <> 403 -> code <> 404 ->
  status_message code = "An error occurred: " ++ pretty code.
Proof.
  intros H0 H1 H3 H4. unfold status_message.
  rewrite (proj2 (Z.eqb_neq code 400) H0), (proj2 (Z.eqb_neq code 401) H1),
    (proj2 (Z.eqb_neq code 403) H3), (proj2 (Z.eqb_neq code 404) H4).
  reflexivity.
Qed.

Lemma status_message_cases (code : Z) :
  code = 400 \/ code = 401 \/ code = 403 \/ code = 404
  \/ status_message code = "An error occurred: " ++ pretty code.
Proof.
  destruct (Z.eq_dec code 400); [tauto|].
  destruct (Z.eq_dec code 401); [tauto|].
  destruct (Z.eq_dec code 403); [tauto|].
  destruct (Z.eq_dec code 404); [tauto|].
  right; right; right; right. now apply status_message_other.
Qed.

Lemma append_inv_head (p a b : string) : p ++ a = p ++ b -> a = b.
Proof.
  induction p as [|c p IH]; cbn; [tauto|].
  intros H. injection H as H. exact (IH H).
Qed.

Lemma status_message_inj (c1 c2 : Z) :
  status_message c1 = status_message c2 -> c1 = c2.
Proof.
  intros H.
  destruct (status_message_cases c1) as [->|[->|[->|[->|H1]]]];
    destruct (status_message_cases c2) as [->|[->|[->|[->|H2]]]];
    try reflexivity;
    try (rewrite ?H1, ?H2 in H; cbn in H; discriminate H).
  rewrite H1, H2 in H. apply append_inv_head in H.
  exact (inj pretty c1 c2 H).
Qed.

Example status_message_500 : status_message 500 = "An error occurred: 500".
Proof. reflexivity. Qed.

Example request_url_default :
  request_url str_float_defaults default_query
  = "https://api.meteomatics.com/2024-10-05T00:00:00Z--2024-10-12T00:00:00Z:PT1H/t_2m:C,precip_1h:mm,wind_speed_10m:ms/52.520551,13.461804/json".
Proof. reflexivity. Qed.

(** C3: a fetch that fails with an HTTP error status shows, after the general
    failure line, the message [status_message] of that status and returns
    None; the messages of two different statuses differ; the message for 401
    names the credentials, and 400, 403 and 404 have messages of their own. *)
Theorem fetch_failure_message_by_status :
  (forall (API_USERNAME API_PASSWORD : option string)
          (requests_get : nat -> string -> option string * option string -> result Response)
          (json_loads : string -> result pyval) (str_float : float -> string)
          (q : Query) (h : list event) (response : Response),
      requests_get (request_count h) (request_url str_float q) (API_USERNAME, API_PASSWORD)
      = Ok response ->
      400 <= status_code response < 600 ->
      exists general,
        get_weather_data_body API_USERNAME API_PASSWORD requests_get json_loads str_float q h
        = (Ok PNone,
           [ StWrite [PStr ("Requesting data from: " ++ request_url str_float q)];
             HttpGet (request_url str_float q) (API_USERNAME, API_PASSWORD);
             StError ("Failed to fetch data: " ++ general);
             StError (status_message (status_code response));
             StWrite [PStr "Response content:"; PStr (text response)] ]))
  /\ (forall c1 c2 : Z, c1 <> c2 -> status_message c1 <> status_message c2)
  /\ status_message 400 = "Bad request. Please check your input parameters and API credentials."
  /\ status_message 401 = "Unauthorized. Please check your API credentials."
  /\ status_message 403 = "Forbidden. You may not have permission to access this resource."
  /\ status_message 404 = "Not found. The requested resource doesn't exist."
  /\ (forall code : Z, code <> 400 -> code <> 401 -> code <> 403 -> code <> 404 ->
                       status_message code = "An error occurred: " ++ pretty code).
Proof.
  split; [|split; [|repeat split]].
  - intros U P net loads sf q h response Hnet Hcode.
    destruct (raise_for_status_error response Hcode) as (msg & Hmsg).
    exists msg. rewrite get_weather_data_body_cases. cbn zeta.
    rewrite Hnet, Hmsg. reflexivity.
  - intros c1 c2 Hne Heq. apply Hne. exact (status_message_inj c1 c2 Heq).
  - exact status_message_other.
Qed.

Lemma fetch_failure_message_by_status_witness :
  (exists general,
      get_weather_data_body (Some "user") (Some "wrong") (server_answers 401 "Unauthorized" "")
        loads_fails str_float_defaults default_query []
      = (Ok PNone,
         [ StWrite [PStr ("Requesting data from: " ++ request_url str_float_defaults default_query)];
           HttpGet (request_url str_float_defaults default_query) (Some "user", Some "wrong");
           StError ("Failed to fetch data: " ++ general);
           StError (status_message 401);
           StWrite [PStr "Response content:"; PStr ""] ]))
  /\ status_message 401 <> status_message 404.
Proof.
  split.
  - apply (proj1 fetch_failure_message_by_status (Some "user") (Some "wrong")
             (server_answers 401 "Unauthorized" "") loads_fails str_float_defaults
             default_query []
             {| status_code := 401; reason := "Unauthorized"; text := "";
                url := request_url str_float_defaults default_query |}).
    + reflexivity.
    + cbn. lia.
  - apply (proj1 (proj2 fetch_failure_message_by_status) 401 404). lia.
Defined.

(** C4 (the code departs from it): when [requests.get] itself fails there is
    no response; the [except] clause shows the failure line and then reads
    [response.status_code], which raises [UnboundLocalError] out of
    [get_weather_data] in place of returning None. *)
Theorem network_failure_escapes_the_handler
    (API_USERNAME API_PASSWORD : option string)
    (json_loads : string -> result pyval) (str_float : float -> string)
    (q : Query) (h : list event) (msg : string) :
  get_weather_data_body API_USERNAME API_PASSWORD (network_down msg) json_loads str_float q h
  = (Raise (Exn UnboundLocalError
              "cannot access local variable 'response' where it is not associated with a value"),
     [ StWrite [PStr ("Requesting data from: " ++ request_url str_float q)];
       HttpGet (request_url str_float q) (API_USERNAME, API_PASSWORD);
       StError ("Failed to fetch data: " ++ msg) ]).
Proof. rewrite get_weather_data_body_cases. reflexivity. Qed.

(** A failure with a response is caught and answered with None. *)
Example http_404_returns_none :
  fst (get_weather_data_body None None (server_answers 404 "Not Found" "") loads_fails
         str_float_defaults default_query [])
  = Ok PNone.
Proof. reflexivity. Qed.

(** C10 (amended): two calls of [get_weather_data] that differ only in
    [parameters] build the same URL, which asks for the fixed triple t_2m:C,
    precip_1h:mm, wind_speed_10m:ms at PT1H; the function body sends exactly
    one GET, to that URL, and runs the same way for both; and when neither
    call is answered from the cache, the two calls send the same request,
    show the same and return the same.  (The parameters are part of the cache
    key, so whether a call is answered from the cache does depend on them.) *)
Theorem parameters_reach_only_the_cache_key
    (API_USERNAME API_PASSWORD : option string)
    (requests_get : nat -> string -> option string * option string -> result Response)
    (json_loads : string -> result pyval) (str_float : float -> string)
    (s e : date) (p1 p2 : list string) (la lo : float) :
  let q1 := {| start_date := s; end_date := e; parameters := p1; lat := la; lon := lo |} in
  let q2 := {| start_date := s; end_date := e; parameters := p2; lat := la; lon := lo |} in
  let body := get_weather_data_body API_USERNAME API_PASSWORD requests_get json_loads str_float in
  let fetch := get_weather_data API_USERNAME API_PASSWORD requests_get json_loads str_float in
  request_url str_float q1 = request_url str_float q2
  /\ request_url str_float q1
     = "https://api.meteomatics.com/" ++ str_date s ++ "T00:00:00Z--" ++ str_date e
         ++ "T00:00:00Z:PT1H/t_2m:C,precip_1h:mm,wind_speed_10m:ms/"
         ++ str_float la ++ "," ++ str_float lo ++ "/json"
  /\ (forall h : list event,
         body q1 h = body q2 h
         /\ List.filter is_http_get (snd (body q1 h))
            = [HttpGet (request_url str_float q1) (API_USERNAME, API_PASSWORD)])
  /\ (forall w : World,
         cache_lookup (query_key q1) (cache w) = None ->
         cache_lookup (query_key q2) (cache w) = None ->
         fst (fetch q1 w) = fst (fetch q2 w)
         /\ events (snd (fetch q1 w)) = events (snd (fetch q2 w))
         /\ List.filter is_http_get (events (snd (fetch q1 w)))
            = (List.filter is_http_get (events w)
                 ++ [HttpGet (request_url str_float q1) (API_USERNAME, API_PASSWORD)])%list).
Proof.
  cbn zeta.
  set (q1 := {| start_date := s; end_date := e; parameters := p1; lat := la; lon := lo |}).
  set (q2 := {| start_date := s; end_date := e; parameters := p2; lat := la; lon := lo |}).
  assert (Hbody : forall h,
             get_weather_data_body API_USERNAME API_PASSWORD requests_get json_loads str_float q1 h
             = get_weather_data_body API_USERNAME API_PASSWORD requests_get json_loads str_float q2 h).
  { intros h. rewrite !get_weather_data_body_cases. reflexivity. }
  assert (Hsent : forall h,
             List.filter is_http_get
               (snd (get_weather_data_body API_USERNAME API_PASSWORD requests_get json_loads
                       str_float q1 h))
             = [HttpGet (request_url str_float q1) (API_USERNAME, API_PASSWORD)]).
  { intros h. rewrite get_weather_data_body_cases. cbn zeta.
    destruct (requests_get _ _ _) as [response|e'].
    - destruct (let? _ := raise_for_status response in json_loads (text response))%res as [v|e'].
      + reflexivity.
      + destruct (is_RequestException e'); reflexivity.
    - destruct (is_RequestException e'); reflexivity. }
  split; [reflexivity|]. split; [reflexivity|]. split.
  - intros h. split; [apply Hbody|apply Hsent].
  - intros w H1 H2. unfold get_weather_data, st_cache_data. rewrite H1, H2.
    rewrite <- (Hbody (events w)). specialize (Hsent (events w)).
    destruct (get_weather_data_body API_USERNAME API_PASSWORD requests_get json_loads
                str_float q1 (events w)) as [[v|e'] out];
      cbn [fst snd events] in *;
      (split; [reflexivity|]); (split; [reflexivity|]);
      rewrite List.filter_app, Hsent; reflexivity.
Qed.

Lemma parameters_reach_only_the_cache_key_witness :
  fst (get_weather_data (Some "user") (Some "secret") server_updates loads_small
         str_float_defaults default_query fresh_session)
  = fst (get_weather_data (Some "user") (Some "secret") server_updates loads_small
           str_float_defaults wind_query fresh_session)
  /\ events (snd (get_weather_data (Some "user") (Some "secret") server_updates loads_small
                    str_float_defaults default_query fresh_session))
     = events (snd (get_weather_data (Some "user") (Some "secret") server_updates loads_small
                      str_float_defaults wind_query fresh_session)).
Proof.
  destruct (proj2 (proj2 (proj2
              (parameters_reach_only_the_cache_key (Some "user") (Some "secret")
                 server_updates loads_small str_float_defaults
                 (start_date default_query) (end_date default_query)
                 ["precip_1h:mm"; "t_2m:C"] ["wind_speed_10m:ms"]
                 (lat default_query) (lon default_query))))
              fresh_session)
    as (Hresult & Hevents & _).
  - reflexivity.
  - reflexivity.
  - split; [exact Hresult|exact Hevents].
Defined.

(** The claim as the specification has it fails after a first call: the same
    call again is answered from the cache, without a request, with the first
    answer, while the call with other parameters sends a request of its own
    and returns what the server answers by then. *)
Lemma other_parameters_change_request_and_result :
  fst (get_weather_data (Some "user") (Some "secret") server_updates loads_small
         str_float_defaults default_query session_after_first_fetch)
  = Ok (PList [])
  /\ fst (get_weather_data (Some "user") (Some "secret") server_updates loads_small
            str_float_defaults wind_query session_after_first_fetch)
     = Ok (PDict [])
  /\ request_count (events session_after_first_fetch) = 1%nat
  /\ request_count
       (events (snd (get_weather_data (Some "user") (Some "secret") server_updates loads_small
                       str_float_defaults default_query session_after_first_fetch)))
     = 1%nat
  /\ request_count
       (events (snd (get_weather_data (Some "user") (Some "secret") server_updates loads_small
                       str_float_defaults wind_query session_after_first_fetch)))
     = 2%nat.
Proof. vm_compute. repeat split. Qed.

(** ** The cache of the fetcher *)

Lemma request_count_elements (l : list event) :
  forallb is_element l = true -> request_count l = 0%nat.
Proof.
  induction l as [|ev l IH]; cbn; [reflexivity|].
  intros H. apply andb_prop in H as [Hev Hl].
  unfold request_count in *. cbn.
  destruct ev; cbn in *; try discriminate; exact (IH Hl).
Qed.

Lemma forallb_filter_same {A} (f : A -> bool) (l : list A) :
  forallb f (List.filter f l) = true.
Proof.
  induction l as [|a l IH]; cbn; [reflexivity|].
  destruct (f a) eqn:Ha; cbn; [rewrite Ha; exact IH|exact IH].
Qed.

Lemma cache_lookup_holds_elements (k : QueryKey) (c : list (QueryKey * CacheEntry))
      (entry : CacheEntry) :
  Forall (fun kv => forallb is_element (cached_elements (snd kv)) = true) c ->
  cache_lookup k c = Some entry ->
  forallb is_element (cached_elements entry) = true.
Proof.
  induction 1 as [|[k' entry'] c Hhd _ IH]; cbn; [discriminate|].
  destruct (decide (k = k')).
  - intros [= <-]. exact Hhd.
  - exact IH.
Qed.

Section CacheFacts.

Context (API_USERNAME API_PASSWORD : option string).
Context (requests_get : nat -> string -> option string * option string -> result Response).
Context (json_loads : string -> result pyval).
Context (str_float : float -> string).

Local Abbreviation fetch :=
  (get_weather_data API_USERNAME API_PASSWORD requests_get json_loads str_float).

(** A call whose arguments have an entry shows the entry's elements and
    returns its value; the function body does not run. *)
Lemma get_weather_data_hit (q : Query) (w : World) (entry : CacheEntry) :
  cache_lookup (query_key q) (cache w) = Some entry ->
  fetch q w
  = (Ok (cached_value entry),
     {| events := events w ++ cached_elements entry; cache := cache w |}).
Proof.
  intros Hhit. unfold get_weather_data, st_cache_data. rewrite Hhit. reflexivity.
Qed.

(** A call that returns leaves an entry with the returned value. *)
Lemma get_weather_data_fills_cache (q : Query) (w w1 : World) (v : pyval) :
  cache_holds_elements w ->
  fetch q w = (Ok v, w1) ->
  exists entry,
    cache_lookup (query_key q) (cache w1) = Some entry
    /\ cached_value entry = v
    /\ forallb is_element (cached_elements entry) = true.
Proof.
  intros Hinv. unfold get_weather_data, st_cache_data.
  destruct (cache_lookup (query_key q) (cache w)) as [entry|] eqn:Hlook.
  - intros [= <- <-]. exists entry. cbn. split; [exact Hlook|]. split; [reflexivity|].
    exact (cache_lookup_holds_elements _ _ _ Hinv Hlook).
  - destruct (get_weather_data_body _ _ _ _ _ q (events w)) as [[v'|e] out]; [|discriminate].
    intros [= <- <-]. eexists. cbn.
    destruct (decide (query_key q = query_key q)) as [_|Hne]; [|congruence].
    split; [reflexivity|]. split; [reflexivity|]. cbn. apply forallb_filter_same.
Qed.

(** The invariant is kept by every call. *)
Lemma get_weather_data_keeps_invariant (q : Query) (w : World) :
  cache_holds_elements w -> cache_holds_elements (snd (fetch q w)).
Proof.
  intros Hinv. unfold get_weather_data, st_cache_data.
  destruct (cache_lookup (query_key q) (cache w)) as [entry|]; [exact Hinv|].
  destruct (get_weather_data_body _ _ _ _ _ q (events w)) as [[v'|e] out]; [|exact Hinv].
  constructor; [|exact Hinv]. cbn. apply forallb_filter_same.
Qed.

End CacheFacts.

Lemma fresh_session_holds_elements : cache_holds_elements fresh_session.
Proof. constructor. Qed.

(** C6, as the code has it: once a call of [get_weather_data] has returned (a
    payload or None), the next call with the identical argument tuple returns
    the same value from the cache and sends no request. *)
Theorem repeated_query_is_served_from_cache
    (API_USERNAME API_PASSWORD : option string)
    (requests_get : nat -> string -> option string * option string -> result Response)
    (json_loads : string -> result pyval) (str_float : float -> string)
    (q : Query) (w w1 : World) (v : pyval) :
  cache_holds_elements w ->
  get_weather_data API_USERNAME API_PASSWORD requests_get json_loads str_float q w = (Ok v, w1) ->
  exists w2,
    get_weather_data API_USERNAME API_PASSWORD requests_get json_loads str_float q w1 = (Ok v, w2)
    /\ request_count (events w2) = request_count (events w1)
    /\ cache w2 = cache w1.
Proof.
  intros Hinv Hfirst.
  destruct (get_weather_data_fills_cache _ _ _ _ _ q w w1 v Hinv Hfirst)
    as (entry & Hlook & Hval & Hels).
  rewrite (get_weather_data_hit _ _ _ _ _ q w1 entry Hlook).
  eexists. split; [rewrite Hval; reflexivity|]. cbn [events cache]. split; [|reflexivity].
  rewrite request_count_app, (request_count_elements _ Hels). lia.
Qed.

Lemma repeated_query_is_served_from_cache_witness :
  exists w2,
    get_weather_data (Some "user") (Some "secret") (server_answers 200 "OK" "{}")
      loads_fixture str_float_defaults default_query
      (snd (get_weather_data (Some "user") (Some "secret") (server_answers 200 "OK" "{}")
              loads_fixture str_float_defaults default_query fresh_session))
    = (Ok fixture, w2)
    /\ request_count (events w2)
       = request_count
           (events (snd (get_weather_data (Some "user") (Some "secret")
                           (server_answers 200 "OK" "{}")
                           loads_fixture str_float_defaults default_query fresh_session)))
    /\ cache w2
       = cache (snd (get_weather_data (Some "user") (Some "secret")
                       (server_answers 200 "OK" "{}")
                       loads_fixture str_float_defaults default_query fresh_session)).
Proof.
  apply (repeated_query_is_served_from_cache (Some "user") (Some "secret")
           (server_answers 200 "OK" "{}") loads_fixture str_float_defaults
           default_query fresh_session).
  - constructor.
  - reflexivity.
Defined.

(** C6 as stated fails: a first call that raises stores nothing.  Here the
    server answers 200 with a body that is not JSON; [json.loads] raises, the
    [except] clause does not match, and the second identical call sends a
    second request. *)
Lemma repeated_query_after_raise_requests_again :
  let call :=
    get_weather_data (Some "user") (Some "secret")
      (server_answers 200 "OK" "<html>Service Unavailable</html>")
      loads_fails str_float_defaults default_query in
  fst (call fresh_session) = Raise (Exn JSONDecodeError "Expecting value: line 1 column 1 (char 0)")
  /\ request_count (events (snd (call fresh_session))) = 1%nat
  /\ fst (call (snd (call fresh_session)))
     = Raise (Exn JSONDecodeError "Expecting value: line 1 column 1 (char 0)")
  /\ request_count (events (snd (call (snd (call fresh_session))))) = 2%nat.
Proof. cbn zeta. repeat split; vm_compute; reflexivity. Qed.

(** The cache key holds [parameters]: after a call, the same query with
    other parameters is a miss and sends the same URL again. *)
Example other_parameters_miss_the_cache :
  let fetch :=
    get_weather_data (Some "user") (Some "secret") (server_answers 200 "OK" "{}")
      loads_fixture str_float_defaults in
  let q2 :=
    {| start_date := start_date default_query; end_date := end_date default_query;
       parameters := ["wind_speed_10m:ms"];
       lat := lat default_query; lon := lon default_query |} in
  map is_http_get (events (snd (fetch q2 (snd (fetch default_query fresh_session)))))
  = [false; true; false; true].
Proof. vm_compute. reflexivity. Qed.

(** ** The narrative summarizer *)

(** C5: if the call to the summarization API raises an exception (an instance
    of [Exception]), [analyze_weather_data] catches it and returns a string
    that is not empty: the explanation around [str] of the exception. *)
Theorem analyze_weather_data_contains_api_failures
    (chat_completions_create :
       nat -> list (string * string) -> string -> float -> result ChatCompletion)
    (str_payload : pyval -> string) (data : pyval) (h : list event) (e : exn) :
  chat_completions_create (length (List.filter is_groq_chat h))
    [("system", prompt); ("user", "Data input: " ++ str_payload data)]
    "mixtral-8x7b-32768" 0.5%float
  = Raise e ->
  is_Exception e = true ->
  exists s,
    fst (analyze_weather_data chat_completions_create str_payload data h) = Ok (PStr s)
    /\ s = "An error occurred during the AI analysis: " ++ exn_str e
             ++ ". Please check your internet connection or API key."
    /\ (0 < String.length s)%nat.
Proof.
  intros Hcall Hexn. eexists. split; [|split; [reflexivity|]].
  - unfold analyze_weather_data, bind, attempt, groq_chat. rewrite Hcall, Hexn. reflexivity.
  - simpl. lia.
Qed.

Lemma analyze_weather_data_contains_api_failures_witness :
  exists s,
    fst (analyze_weather_data
           (fun _ _ _ _ => Raise (Exn GroqError "Connection error."))
           (fun _ => "{}") fixture [])
    = Ok (PStr s)
    /\ s = "An error occurred during the AI analysis: " ++ "Connection error."
             ++ ". Please check your internet connection or API key."
    /\ (0 < String.length s)%nat.
Proof.
  apply (analyze_weather_data_contains_api_failures
           (fun _ _ _ _ => Raise (Exn GroqError "Connection error."))
           (fun _ => "{}") fixture [] (Exn GroqError "Connection error.")).
  - reflexivity.
  - reflexivity.
Defined.

(** An answer with no choice is contained the same way. *)
Example analyze_weather_data_no_choice :
  fst (analyze_weather_data (fun _ _ _ _ => Ok {| choices := [] |}) (fun _ => "{}") fixture [])
  = Ok (PStr "An error occurred during the AI analysis: list index out of range. Please check your internet connection or API key.").
Proof. reflexivity. Qed.

(** ** Start-up *)

(** C8, as the code has it: the program checks no credential when it starts.
    Start-up fails exactly when the constructor of the Groq client raises, as
    the groq package does on a missing key; the weather credentials are bound
    as the environment gives them, None when absent. *)
Theorem startup_binds_credentials_unchecked
    (getenv : string -> option string) (Groq : option string -> result GroqClient) :
  (forall c : GroqClient,
      Groq (getenv "GROQ_API_KEY") = Ok c ->
      main_module getenv Groq
      = Ok {| API_USERNAME := getenv "API_USERNAME";
              API_PASSWORD := getenv "API_PASSWORD";
              KEY := getenv "GROQ_API_KEY";
              client := c |})
  /\ (forall e : exn,
         Groq (getenv "GROQ_API_KEY") = Raise e -> main_module getenv Groq = Raise e)
  /\ (getenv "GROQ_API_KEY" = None ->
      exists e, main_module getenv Groq_sdk = Raise e /\ exn_cls e = GroqError).
Proof.
  unfold main_module, agent_module. repeat split.
  - intros c Hc. rewrite Hc. reflexivity.
  - intros e He. rewrite He. reflexivity.
  - intros Hkey. rewrite Hkey. eexists. split; reflexivity.
Qed.

Lemma startup_binds_credentials_unchecked_witness :
  main_module env_without_weather_credentials Groq_sdk
  = Ok {| API_USERNAME := None; API_PASSWORD := None;
          KEY := Some "gsk_example";
          client := {| client_api_key := "gsk_example" |} |}.
Proof.
  apply (proj1 (startup_binds_credentials_unchecked env_without_weather_credentials Groq_sdk)
           {| client_api_key := "gsk_example" |}).
  reflexivity.
Defined.

(** C8 as stated fails: with both weather credentials absent the program
    starts, and the first fetch sends None as user name and password. *)
Lemma startup_without_weather_credentials_succeeds :
  exists g,
    main_module env_without_weather_credentials Groq_sdk = Ok g
    /\ API_USERNAME g = None
    /\ API_PASSWORD g = None
    /\ snd (get_weather_data_body (API_USERNAME g) (API_PASSWORD g)
              (server_answers 401 "Unauthorized" "") loads_fails str_float_defaults
              default_query [])
       = [ StWrite [PStr ("Requesting data from: "
                            ++ request_url str_float_defaults default_query)];
           HttpGet (request_url str_float_defaults default_query) (None, None);
           StError ("Failed to fetch data: 401 Client Error: Unauthorized for url: "
                      ++ request_url str_float_defaults default_query);
           StError "Unauthorized. Please check your API credentials.";
           StWrite [PStr "Response content:"; PStr ""] ].
Proof. eexists. repeat split. Qed.

(** ** The rainfall prediction page *)

(** [speak] asks for the translation whatever the key is: no branch of the
    page looks at the key. *)
Lemma speak_calls_translate_with_any_key
    (translate : string -> string -> string -> result pyval)
    (tts : string -> pyval -> string -> result pyval)
    (st_audio : pyval -> result unit) (key text : string) (w : World) :
  exists rest,
    events (snd (speak translate tts st_audio key text w))
    = (events w ++ GhanaTranslate key text "en-tw" :: rest)%list.
Proof.
  unfold speak, sbind, say, of_result, run_io, emit, lift_result. cbn.
  destruct (translate key text "en-tw") as [translated|e]; cbn.
  - destruct (tts key translated "tw") as [audio|e]; cbn.
    + destruct (st_audio audio) as [[]|e]; cbn; rewrite <- ?app_assoc; eexists; reflexivity.
    + rewrite <- ?app_assoc. eexists. reflexivity.
  - rewrite <- ?app_assoc. eexists. reflexivity.
Qed.

(** C9 (the code departs from it): the page is submitted with the key field,
    labelled optional, left empty, and the fetch answers the fixture.  The
    page calls the translation service with the empty key; when that call,
    the speech call or [st.audio] on its answer raises, the page ends with
    the exception and the AI insight is neither requested nor shown. *)
Theorem page_without_key_still_calls_translation
    (API_USERNAME API_PASSWORD : option string)
    (chat_completions_create :
       nat -> list (string * string) -> string -> float -> result ChatCompletion)
    (str_payload : pyval -> string)
    (translate : string -> string -> string -> result pyval)
    (tts : string -> pyval -> string -> result pyval)
    (st_audio : pyval -> result unit) (confidence : Z) :
  let run :=
    rainfall_prediction_page API_USERNAME API_PASSWORD (server_answers 200 "OK" "{}")
      loads_fixture str_float_defaults chat_completions_create str_payload
      translate tts st_audio confidence inputs_without_ghana_key fresh_session in
  existsb (is_translate_call "") (events (snd run)) = true
  /\ (forall e, translate "" rain_advisory "en-tw" = Raise e ->
                fst run = Raise e
                /\ existsb shows_ai_insight (events (snd run)) = false)
  /\ (forall translated e,
         translate "" rain_advisory "en-tw" = Ok translated ->
         tts "" translated "tw" = Raise e ->
         fst run = Raise e
         /\ existsb (is_tts_call "") (events (snd run)) = true
         /\ existsb shows_ai_insight (events (snd run)) = false)
  /\ (forall translated audio e,
         translate "" rain_advisory "en-tw" = Ok translated ->
         tts "" translated "tw" = Ok audio ->
         st_audio audio = Raise e ->
         fst run = Raise e
         /\ existsb shows_ai_insight (events (snd run)) = false).
Proof.
  vm_compute.
  destruct (translate _ _ _) as [translated|e1] eqn:Htranslate.
  - destruct (tts _ _ _) as [audio|e2] eqn:Htts.
    + destruct (st_audio _) as [[]|e3] eqn:Haudio.
      * destruct (chat_completions_create _ _ _ _) as [[[|content rest]]|[cls msg]];
          try destruct cls; vm_compute;
          (split; [reflexivity|]); (split; [discriminate|]);
          (split; [intros t e [= <-] H; congruence|]);
          intros t a e [= <-] H; rewrite Htts in H; injection H as <-; congruence.
      * (split; [reflexivity|]); (split; [discriminate|]).
        split; [intros t e [= <-] H; congruence|].
        intros t a e [= <-] H. rewrite Htts in H. injection H as <-.
        rewrite Haudio. intros [= <-]. split; reflexivity.
    + (split; [reflexivity|]); (split; [discriminate|]). split.
      * intros t e [= <-] H. rewrite Htts in H. injection H as <-. repeat split.
      * intros t a e [= <-] H. congruence.
  - (split; [reflexivity|]); split; [|split].
    + intros e [= <-]. split; reflexivity.
    + discriminate.
    + discriminate.
Qed.

(** With a key the page runs the same calls: the key only travels along. *)
Example page_with_key_runs_the_same_calls :
  let run :=
    rainfall_prediction_page (Some "user") (Some "secret") (server_answers 200 "OK" "{}")
      loads_fixture str_float_defaults
      (fun _ _ _ _ => Ok {| choices := [PStr "Rain is likely."] |}) (fun _ => "{}")
      (fun _ _ _ => Ok (PStr "Osu bɛtɔ.")) (fun _ _ _ => Ok (PStr "RIFF"))
      (fun _ => Ok tt) 85
      {| ghana_key := "k-123";
         in_lat := 0x1.a42a16a487336p+5%float;
         in_lon := 0x1.aec7192ea52f0p+3%float;
         in_start_date := {| year := 2024; month := 10; day := 5 |};
         in_end_date := {| year := 2024; month := 10; day := 12 |};
         predict_pressed := true |}
      fresh_session in
  fst run = Ok tt
  /\ existsb (is_translate_call "k-123") (events (snd run)) = true
  /\ existsb shows_ai_insight (events (snd run)) = true.
Proof. vm_compute. repeat split. Qed.

(** * Further properties of the code *)

(** ** The series and its three readers *)

Lemma list_comprehension_value_missing (recs : list (list (string * pyval))) :
  Exists (fun r => dict_get "value" r = None) recs ->
  list_comprehension (fun item => subscript_key item "value") (map PDict recs)
  = Raise (Exn KeyError "'value'").
Proof.
  induction recs as [|r recs IH]; intros Hex; [inversion Hex|].
  cbn [map list_comprehension subscript_key].
  destruct (dict_get "value" r) as [v|] eqn:Hr; [|reflexivity].
  cbn [rbind]. rewrite IH; [reflexivity|].
  inversion Hex as [? ? H|? ? H]; subst; [congruence|exact H].
Qed.

(** X1: the values are extracted from every sample before any is compared:
    one sample record without a 'value' key makes [predict_rainfall] raise
    [KeyError], also when an earlier sample is above the threshold. *)
Theorem predict_rainfall_sample_without_value
    (data : pyval) (recs : list (list (string * pyval))) :
  dates_of data = Ok (PList (map PDict recs)) ->
  Exists (fun r => dict_get "value" r = None) recs ->
  predict_rainfall data = Raise (Exn KeyError "'value'").
Proof.
  intros Hd Hex. unfold predict_rainfall, precip_data. rewrite Hd. cbn [rbind py_iter].
  rewrite (list_comprehension_value_missing recs Hex). reflexivity.
Qed.

Lemma predict_rainfall_sample_without_value_witness :
  predict_rainfall
    (payload [block "precip_1h:mm" 0%float 0%float
                [ sample "2024-10-05T00:00:00Z" (PFloat 0x1.3333333333333p-1%float);
                  PDict [("date", PStr "2024-10-05T01:00:00Z")] ]])
  = Raise (Exn KeyError "'value'").
Proof.
  apply (predict_rainfall_sample_without_value _
           [ [("date", PStr "2024-10-05T00:00:00Z"); ("value", PFloat 0x1.3333333333333p-1%float)];
             [("date", PStr "2024-10-05T01:00:00Z")] ]).
  - reflexivity.
  - right. left. reflexivity.
Defined.

Lemma gt_half_below (v : pyval) :
  is_number v -> ~ exceeds_half v -> gt_half v = Ok false.
Proof.
  destruct v as [| |z|f| | |]; cbn; try contradiction; intros _ H.
  - destruct (Z.leb_spec 1 z); [lia|reflexivity].
  - destruct (0.5 <? f)%float; [congruence|reflexivity].
Qed.

Lemma gt_half_above (v : pyval) :
  is_number v -> exceeds_half v -> gt_half v = Ok true.
Proof.
  destruct v as [| |z|f| | |]; cbn; try contradiction; intros _ H.
  - destruct (Z.leb_spec 1 z); [reflexivity|lia].
  - rewrite H. reflexivity.
Qed.

Lemma py_any_skips_below (pre rest : list pyval) :
  Forall (fun x => is_number x /\ ~ exceeds_half x) pre ->
  py_any gt_half (pre ++ rest)%list = py_any gt_half rest.
Proof.
  induction 1 as [|x pre [Hn Hb] _ IH]; [reflexivity|].
  cbn [app py_any]. rewrite (gt_half_below x Hn Hb). exact IH.
Qed.

(** X2: [any] stops at the first sample above the threshold: when the
    samples before it are numbers not above 0.5, the result is true whatever
    follows it (a null, a string). *)
Theorem predict_rainfall_stops_at_first_exceeding
    (data : pyval) (pre post : list pyval) (v : pyval) :
  precip_data data = Ok (pre ++ v :: post)%list ->
  Forall (fun x => is_number x /\ ~ exceeds_half x) pre ->
  is_number v -> exceeds_half v ->
  predict_rainfall data = Ok true.
Proof.
  intros Hs Hpre Hn Hv. unfold predict_rainfall. rewrite Hs. cbn [rbind].
  rewrite (py_any_skips_below pre (v :: post) Hpre).
  cbn [py_any]. rewrite (gt_half_above v Hn Hv). reflexivity.
Qed.

Lemma predict_rainfall_stops_at_first_exceeding_witness :
  predict_rainfall
    (payload [block "precip_1h:mm" 0%float 0%float
                [ sample "a" (PFloat 0x0p+0%float);
                  sample "b" (PInt 1);
                  sample "c" PNone; sample "d" (PStr "n/a") ]])
  = Ok true.
Proof.
  apply (predict_rainfall_stops_at_first_exceeding _ [PFloat 0x0p+0%float] [PNone; PStr "n/a"] (PInt 1)).
  - reflexivity.
  - repeat constructor. cbn. discriminate.
  - exact I.
  - cbn. lia.
Defined.

(** X3: a sample that is no number and no bool (a JSON null, a string),
    met before any sample above the threshold, makes [predict_rainfall] raise
    [TypeError]. *)
Theorem predict_rainfall_uncomparable_sample
    (data : pyval) (pre post : list pyval) (v : pyval) :
  precip_data data = Ok (pre ++ v :: post)%list ->
  Forall (fun x => is_number x /\ ~ exceeds_half x) pre ->
  is_comparable v = false ->
  exists e, predict_rainfall data = Raise e /\ exn_cls e = TypeError.
Proof.
  intros Hs Hpre Hv. unfold predict_rainfall. rewrite Hs. cbn [rbind].
  rewrite (py_any_skips_below pre (v :: post) Hpre). cbn [py_any].
  destruct v; try discriminate Hv; eexists; split; reflexivity.
Qed.

Lemma predict_rainfall_uncomparable_sample_witness :
  exists e,
    predict_rainfall
      (payload [block "precip_1h:mm" 0%float 0%float
                  [ sample "a" (PFloat 0x0p+0%float); sample "b" PNone;
                    sample "c" (PFloat 0x1.3333333333333p-1%float) ]])
    = Raise e
    /\ exn_cls e = TypeError.
Proof.
  apply (predict_rainfall_uncomparable_sample _ [PFloat 0x0p+0%float]
           [PFloat 0x1.3333333333333p-1%float] PNone).
  - reflexivity.
  - repeat constructor. cbn. discriminate.
  - reflexivity.
Defined.

(** X4: the three readers of the payload look at the first entry of
    data['data'] only: two payloads with the same first block give the same
    prediction, the same chart and the same heat map, whatever else they
    hold. *)
Theorem only_the_first_block_is_read
    (kv1 kv2 : list (string * pyval)) (first : pyval) (rest1 rest2 : list pyval)
    (parameter : string) (la lo : float) :
  dict_get "data" kv1 = Some (PList (first :: rest1)) ->
  dict_get "data" kv2 = Some (PList (first :: rest2)) ->
  predict_rainfall (PDict kv1) = predict_rainfall (PDict kv2)
  /\ plot_weather_data (PDict kv1) parameter = plot_weather_data (PDict kv2) parameter
  /\ create_heatmap (PDict kv1) la lo = create_heatmap (PDict kv2) la lo.
Proof.
  intros H1 H2.
  assert (Hd : dates_of (PDict kv1) = dates_of (PDict kv2)).
  { unfold dates_of. cbn [subscript_key]. rewrite H1, H2. reflexivity. }
  unfold predict_rainfall, create_heatmap, precip_data, plot_weather_data.
  rewrite Hd. repeat split.
Qed.

Lemma only_the_first_block_is_read_witness :
  predict_rainfall dry_mild_day
  = predict_rainfall
      (payload [block "t_2m:C" 0x1.a42a16a487336p+5%float 0x1.aec7192ea52f0p+3%float
                  [ sample "2024-10-05T00:00:00Z" (PFloat 0x1.8p+3%float);
                    sample "2024-10-05T01:00:00Z" (PFloat 0x1.7p+3%float) ]]).
Proof.
  refine (proj1 (only_the_first_block_is_read _ _ _ _ [] "Precipitation (mm)" 0%float 0%float _ _));
    reflexivity.
Defined.

(** X5: the label given to [plot_weather_data] reaches the title only: two
    calls on the same payload with different labels draw the same points, or
    fail with the same exception. *)
Theorem plot_weather_data_label_is_title_only (data : pyval) (p1 p2 : string) :
  match plot_weather_data data p1, plot_weather_data data p2 with
  | Ok fig1, Ok fig2 =>
      fig_points fig1 = fig_points fig2
      /\ fig_title fig1 = p1 ++ " over time"
      /\ fig_title fig2 = p2 ++ " over time"
  | Raise e1, Raise e2 => e1 = e2
  | _, _ => False
  end.
Proof.
  unfold plot_weather_data.
  destruct (dates_of data) as [dates|e]; cbn [rbind]; [|reflexivity].
  destruct (pd_DataFrame dates) as [df|e]; cbn [rbind]; [|reflexivity].
  unfold px_line.
  destruct (df_column "date" (df_data df)) as [xs|]; [|reflexivity].
  destruct (df_column "value" (df_data df)) as [ys|]; [|reflexivity].
  repeat split.
Qed.

Lemma In_keys_dict_get (k : string) (r : list (string * pyval)) :
  In k (map fst r) -> dict_get k r <> None.
Proof.
  induction r as [|[k' v] r IH]; cbn; [tauto|].
  destruct (String.eqb k k') eqn:Hk; [discriminate|].
  intros [H|H]; [|exact (IH H)].
  subst. rewrite String.eqb_refl in Hk. discriminate.
Qed.

Lemma column_is_key_of_some_record (k : string) (recs : list (list (string * pyval))) :
  existsb (String.eqb k) (frame_columns recs) = true ->
  Exists (fun r => dict_get k r <> None) recs.
Proof.
  intros H. apply existsb_eqb_In in H. unfold frame_columns in H.
  apply In_fold_add_key in H. destruct H as [[]|H].
  apply in_concat in H. destruct H as (ks & Hks & Hk).
  apply in_map_iff in Hks. destruct Hks as (r & <- & Hr).
  apply List.Exists_exists. exists r. split; [exact Hr|].
  apply In_keys_dict_get. exact Hk.
Qed.

(** X6: on a series of sample records [plot_weather_data] returns a chart
    exactly when some record has a 'date' key and some record has a 'value'
    key; otherwise (an empty series among others) it raises [ValueError]. *)
Theorem plot_weather_data_needs_both_columns
    (data : pyval) (parameter : string) (recs : list (list (string * pyval))) :
  dates_of data = Ok (PList (map PDict recs)) ->
  ((exists fig, plot_weather_data data parameter = Ok fig)
   <-> Exists (fun r => dict_get "date" r <> None) recs
       /\ Exists (fun r => dict_get "value" r <> None) recs)
  /\ ((exists fig, plot_weather_data data parameter = Ok fig)
      \/ (exists e, plot_weather_data data parameter = Raise e /\ exn_cls e = ValueError)).
Proof.
  intros Hd. rewrite (plot_weather_data_records data parameter recs Hd).
  destruct (existsb (String.eqb "date") (frame_columns recs)) eqn:Hdate.
  - destruct (existsb (String.eqb "value") (frame_columns recs)) eqn:Hvalue.
    + split; [|left; eexists; reflexivity]. split.
      * intros _. split; apply column_is_key_of_some_record; assumption.
      * intros _. eexists. reflexivity.
    + split; [|right; eexists; split; reflexivity]. split.
      * intros [fig Hfig]. discriminate.
      * intros [_ H]. apply key_of_some_record_is_column in H. congruence.
  - split; [|right; eexists; split; reflexivity]. split.
    + intros [fig Hfig]. discriminate.
    + intros [H _]. apply key_of_some_record_is_column in H. congruence.
Qed.

Lemma plot_weather_data_needs_both_columns_witness :
  ((exists fig, plot_weather_data empty_fixture "Precipitation (mm)" = Ok fig)
   <-> Exists (fun r => dict_get "date" r <> None) []
       /\ Exists (fun r => dict_get "value" r <> None) [])
  /\ ((exists fig, plot_weather_data empty_fixture "Precipitation (mm)" = Ok fig)
      \/ (exists e, plot_weather_data empty_fixture "Precipitation (mm)" = Raise e
                    /\ exn_cls e = ValueError)).
Proof.
  apply (plot_weather_data_needs_both_columns empty_fixture "Precipitation (mm)" []).
  reflexivity.
Defined.












(** ** The fetcher, one call *)

Section FetcherMore.

Context (API_USERNAME API_PASSWORD : option string).
Context (requests_get : nat -> string -> option string * option string -> result Response).
Context (json_loads : string -> result pyval).
Context (str_float : float -> string).

Local Abbreviation body :=
  (get_weather_data_body API_USERNAME API_PASSWORD requests_get json_loads str_float).
Local Abbreviation target := (request_url str_float).

Lemma get_weather_data_body_trace (q : Query) (h : list event) :
  exists rest,
    snd (body q h)
    = StWrite [PStr ("Requesting data from: " ++ target q)]
        :: HttpGet (target q) (API_USERNAME, API_PASSWORD) :: rest
    /\ forallb is_element rest = true.
Proof.
  rewrite get_weather_data_body_cases. cbn zeta.
  destruct (requests_get _ _ _) as [response|e].
  - destruct (let? _ := raise_for_status response in json_loads (text response))%res as [v|e].
    + exists []. split; reflexivity.
    + destruct (is_RequestException e); eexists; split; reflexivity.
  - destruct (is_RequestException e); eexists; split; reflexivity.
Qed.

Lemma get_weather_data_body_request_count (q : Query) (h : list event) :
  request_count (snd (body q h)) = 1%nat.
Proof.
  destruct (get_weather_data_body_trace q h) as (rest & -> & Hrest).
  change (S (request_count rest) = 1%nat).
  rewrite (request_count_elements rest Hrest). reflexivity.
Qed.

Lemma raise_for_status_ok (response : Response) :
  status_code response < 400 \/ 600 <= status_code response ->
  raise_for_status response = Ok tt.
Proof.
  intros Hcode. unfold raise_for_status.
  destruct ((400 <=? status_code response) && (status_code response <? 500)) eqn:H4.
  - apply andb_prop in H4 as [Ha Hb]. apply Z.leb_le in Ha. apply Z.ltb_lt in Hb. lia.
  - destruct ((500 <=? status_code response) && (status_code response <? 600)) eqn:H5;
      [|reflexivity].
    apply andb_prop in H5 as [Ha Hb]. apply Z.leb_le in Ha. apply Z.ltb_lt in Hb. lia.
Qed.

End FetcherMore.

(** X9: whatever the network and the parser do, one run of the body of
    [get_weather_data] shows the URL, sends exactly one request, to that URL
    with the two credentials as they are bound, and never a second one:
    nothing is retried. *)
Theorem get_weather_data_body_sends_one_request
    (API_USERNAME API_PASSWORD : option string)
    (requests_get : nat -> string -> option string * option string -> result Response)
    (json_loads : string -> result pyval) (str_float : float -> string)
    (q : Query) (h : list event) :
  request_count
    (snd (get_weather_data_body API_USERNAME API_PASSWORD requests_get json_loads str_float q h))
  = 1%nat
  /\ exists rest,
       snd (get_weather_data_body API_USERNAME API_PASSWORD requests_get json_loads str_float q h)
       = StWrite [PStr ("Requesting data from: " ++ request_url str_float q)]
           :: HttpGet (request_url str_float q) (API_USERNAME, API_PASSWORD) :: rest
       /\ forallb is_element rest = true.
Proof.
  split.
  - apply get_weather_data_body_request_count.
  - apply get_weather_data_body_trace.
Qed.

(** X10: an answer that is no HTTP error but whose body [json.loads]
    rejects is not handled: the exception leaves [get_weather_data] and no
    error message is shown. *)
Theorem unparsable_answer_escapes
    (API_USERNAME API_PASSWORD : option string)
    (requests_get : nat -> string -> option string * option string -> result Response)
    (json_loads : string -> result pyval) (str_float : float -> string)
    (q : Query) (h : list event) (response : Response) (e : exn) :
  requests_get (request_count h) (request_url str_float q) (API_USERNAME, API_PASSWORD)
  = Ok response ->
  status_code response < 400 \/ 600 <= status_code response ->
  json_loads (text response) = Raise e ->
  is_RequestException e = false ->
  get_weather_data_body API_USERNAME API_PASSWORD requests_get json_loads str_float q h
  = (Raise e,
     [ StWrite [PStr ("Requesting data from: " ++ request_url str_float q)];
       HttpGet (request_url str_float q) (API_USERNAME, API_PASSWORD) ]).
Proof.
  intros Hnet Hcode Hloads Hexn. rewrite get_weather_data_body_cases. cbn zeta.
  rewrite Hnet, (raise_for_status_ok response Hcode). cbn [rbind].
  rewrite Hloads, Hexn. reflexivity.
Qed.

Lemma unparsable_answer_escapes_witness :
  get_weather_data_body (Some "user") (Some "secret") (server_answers 204 "No Content" "")
    loads_fails str_float_defaults default_query []
  = (Raise (Exn JSONDecodeError "Expecting value: line 1 column 1 (char 0)"),
     [ StWrite [PStr ("Requesting data from: " ++ request_url str_float_defaults default_query)];
       HttpGet (request_url str_float_defaults default_query) (Some "user", Some "secret") ]).
Proof.
  apply (unparsable_answer_escapes (Some "user") (Some "secret")
           (server_answers 204 "No Content" "") loads_fails str_float_defaults default_query []
           {| status_code := 204; reason := "No Content"; text := "";
              url := request_url str_float_defaults default_query |}).
  - reflexivity.
  - cbn. lia.
  - reflexivity.
  - reflexivity.
Defined.

(** X11: what [get_weather_data] returns is never a structure of its own
    making: a returned value is either exactly what [json.loads] gave for the
    body of the response, with nothing shown but the URL, or it is None, with
    the failure line, the message of the status and the response content
    shown. *)
Theorem get_weather_data_body_returns_parsed_or_none
    (API_USERNAME API_PASSWORD : option string)
    (requests_get : nat -> string -> option string * option string -> result Response)
    (json_loads : string -> result pyval) (str_float : float -> string)
    (q : Query) (h : list event) (v : pyval) :
  fst (get_weather_data_body API_USERNAME API_PASSWORD requests_get json_loads str_float q h)
  = Ok v ->
  exists response,
    requests_get (request_count h) (request_url str_float q) (API_USERNAME, API_PASSWORD)
    = Ok response
    /\ ((json_loads (text response) = Ok v
         /\ snd (get_weather_data_body API_USERNAME API_PASSWORD requests_get json_loads
                   str_float q h)
            = [ StWrite [PStr ("Requesting data from: " ++ request_url str_float q)];
                HttpGet (request_url str_float q) (API_USERNAME, API_PASSWORD) ])
        \/ (v = PNone
            /\ exists general,
                snd (get_weather_data_body API_USERNAME API_PASSWORD requests_get json_loads
                       str_float q h)
                = [ StWrite [PStr ("Requesting data from: " ++ request_url str_float q)];
                    HttpGet (request_url str_float q) (API_USERNAME, API_PASSWORD);
                    StError ("Failed to fetch data: " ++ general);
                    StError (status_message (status_code response));
                    StWrite [PStr "Response content:"; PStr (text response)] ])).
Proof.
  rewrite get_weather_data_body_cases. cbn zeta.
  destruct (requests_get _ _ _) as [response|e].
  - intros H. exists response. split; [reflexivity|].
    unfold rbind in *. destruct (raise_for_status response) as [[]|e].
    + destruct (json_loads (text response)) as [parsed|e].
      * left. cbn in H. injection H as ->. split; reflexivity.
      * destruct (is_RequestException e); [|discriminate].
        right. cbn in H. injection H as <-. split; [reflexivity|]. eexists. reflexivity.
    + destruct (is_RequestException e); [|discriminate].
      right. cbn in H. injection H as <-. split; [reflexivity|]. eexists. reflexivity.
  - destruct (is_RequestException e); discriminate.
Qed.

Lemma get_weather_data_body_returns_parsed_or_none_witness :
  exists response,
    server_answers 200 "OK" "{}" 0%nat (request_url str_float_defaults default_query)
      (Some "user", Some "secret")
    = Ok response
    /\ ((loads_fixture (text response) = Ok fixture
         /\ snd (get_weather_data_body (Some "user") (Some "secret")
                   (server_answers 200 "OK" "{}") loads_fixture str_float_defaults
                   default_query [])
            = [ StWrite [PStr ("Requesting data from: "
                                 ++ request_url str_float_defaults default_query)];
                HttpGet (request_url str_float_defaults default_query)
                  (Some "user", Some "secret") ])
        \/ (fixture = PNone
            /\ exists general,
                snd (get_weather_data_body (Some "user") (Some "secret")
                       (server_answers 200 "OK" "{}") loads_fixture str_float_defaults
                       default_query [])
                = [ StWrite [PStr ("Requesting data from: "
                                     ++ request_url str_float_defaults default_query)];
                    HttpGet (request_url str_float_defaults default_query)
                      (Some "user", Some "secret");
                    StError ("Failed to fetch data: " ++ general);
                    StError (status_message (status_code response));
                    StWrite [PStr "Response content:"; PStr (text response)] ])).
Proof.
  apply (get_weather_data_body_returns_parsed_or_none (Some "user") (Some "secret")
           (server_answers 200 "OK" "{}") loads_fixture str_float_defaults default_query []
           fixture).
  reflexivity.
Defined.

(** ** The fetcher behind its cache *)

Section CacheMore.

Context (API_USERNAME API_PASSWORD : option string).
Context (requests_get : nat -> string -> option string * option string -> result Response).
Context (json_loads : string -> result pyval).
Context (str_float : float -> string).

Local Abbreviation fetch :=
  (get_weather_data API_USERNAME API_PASSWORD requests_get json_loads str_float).
Local Abbreviation body :=
  (get_weather_data_body API_USERNAME API_PASSWORD requests_get json_loads str_float).

(** A call whose arguments have no entry runs the body on the trace so far. *)
Lemma get_weather_data_miss (q : Query) (w : World) :
  cache_lookup (query_key q) (cache w) = None ->
  fetch q w
  = match body q (events w) with
    | (Ok v, out) =>
        (Ok v,
         {| events := events w ++ out;
            cache := (query_key q,
                      {| cached_value := v; cached_elements := List.filter is_element out |})
                       :: cache w |})
    | (Raise e, out) => (Raise e, {| events := events w ++ out; cache := cache w |})
    end.
Proof.
  intros Hmiss. unfold get_weather_data, st_cache_data. rewrite Hmiss. reflexivity.
Qed.

Lemma get_weather_data_miss_events (q : Query) (w : World) :
  cache_lookup (query_key q) (cache w) = None ->
  events (snd (fetch q w)) = (events w ++ snd (body q (events w)))%list.
Proof.
  intros Hmiss. rewrite (get_weather_data_miss q w Hmiss).
  destruct (body q (events w)) as [[v|e] out]; reflexivity.
Qed.

Lemma get_weather_data_keeps_entries (q : Query) (w : World) (k : QueryKey)
      (entry : CacheEntry) :
  cache_lookup k (cache w) = Some entry ->
  cache_lookup k (cache (snd (fetch q w))) = Some entry.
Proof.
  intros Hk. unfold get_weather_data, st_cache_data.
  destruct (cache_lookup (query_key q) (cache w)) as [found|] eqn:Hq; [exact Hk|].
  destruct (get_weather_data_body _ _ _ _ _ q (events w)) as [[v|e] out]; [|exact Hk].
  cbn. destruct (decide (k = query_key q)) as [->|_]; [congruence|exact Hk].
Qed.

Lemma get_weather_data_keeps_other_misses (q : Query) (w : World) (k : QueryKey) :
  k <> query_key q ->
  cache_lookup k (cache w) = None ->
  cache_lookup k (cache (snd (fetch q w))) = None.
Proof.
  intros Hne Hk. unfold get_weather_data, st_cache_data.
  destruct (cache_lookup (query_key q) (cache w)) as [found|] eqn:Hq; [exact Hk|].
  destruct (get_weather_data_body _ _ _ _ _ q (events w)) as [[v|e] out]; [|exact Hk].
  cbn. destruct (decide (k = query_key q)) as [->|_]; [congruence|exact Hk].
Qed.

End CacheMore.

(** X12: an entry of the cache is never replaced or dropped: whatever call of
    [get_weather_data] follows, with the same or other arguments, returning
    or raising, a stored entry is still the one found for its key. *)
Theorem cache_entries_are_kept
    (API_USERNAME API_PASSWORD : option string)
    (requests_get : nat -> string -> option string * option string -> result Response)
    (json_loads : string -> result pyval) (str_float : float -> string)
    (q : Query) (w : World) (k : QueryKey) (entry : CacheEntry) :
  cache_lookup k (cache w) = Some entry ->
  cache_lookup k
    (cache (snd (get_weather_data API_USERNAME API_PASSWORD requests_get json_loads str_float
                   q w)))
  = Some entry.
Proof. apply get_weather_data_keeps_entries. Qed.

Lemma cache_entries_are_kept_witness :
  cache_lookup (query_key default_query)
    (cache (snd (get_weather_data None None (network_down "unreachable") loads_fails
                   str_float_defaults default_query
                   {| events := [];
                      cache := [(query_key default_query,
                                 {| cached_value := fixture; cached_elements := [] |})] |})))
  = Some {| cached_value := fixture; cached_elements := [] |}.
Proof.
  apply (cache_entries_are_kept None None (network_down "unreachable") loads_fails
           str_float_defaults default_query).
  vm_compute. reflexivity.
Defined.

(** X13: a call of [get_weather_data] sends one request when its arguments
    have no entry in the cache and none when they have one: never more than
    one request per call. *)
Theorem get_weather_data_sends_at_most_one_request
    (API_USERNAME API_PASSWORD : option string)
    (requests_get : nat -> string -> option string * option string -> result Response)
    (json_loads : string -> result pyval) (str_float : float -> string)
    (q : Query) (w : World) :
  cache_holds_elements w ->
  let after :=
    snd (get_weather_data API_USERNAME API_PASSWORD requests_get json_loads str_float q w) in
  request_count (events after)
  = match cache_lookup (query_key q) (cache w) with
    | Some _ => request_count (events w)
    | None => S (request_count (events w))
    end.
Proof.
  intros Hinv. cbn zeta.
  destruct (cache_lookup (query_key q) (cache w)) as [entry|] eqn:Hlook.
  - rewrite (get_weather_data_hit _ _ _ _ _ q w entry Hlook). cbn [snd events].
    rewrite request_count_app.
    rewrite (request_count_elements _ (cache_lookup_holds_elements _ _ _ Hinv Hlook)). lia.
  - rewrite (get_weather_data_miss_events _ _ _ _ _ q w Hlook), request_count_app.
    rewrite get_weather_data_body_request_count. lia.
Qed.

Lemma get_weather_data_sends_at_most_one_request_witness :
  request_count
    (events (snd (get_weather_data None None (network_down "unreachable") loads_fails
                    str_float_defaults default_query fresh_session)))
  = 1%nat.
Proof.
  apply (get_weather_data_sends_at_most_one_request None None (network_down "unreachable")
           loads_fails str_float_defaults default_query fresh_session).
  constructor.
Defined.

Lemma http_error_run
    (API_USERNAME API_PASSWORD : option string)
    (requests_get : nat -> string -> option string * option string -> result Response)
    (json_loads : string -> result pyval) (str_float : float -> string)
    (q : Query) (h : list event) (response : Response) :
  requests_get (request_count h) (request_url str_float q) (API_USERNAME, API_PASSWORD)
  = Ok response ->
  400 <= status_code response < 600 ->
  exists general,
    get_weather_data_body API_USERNAME API_PASSWORD requests_get json_loads str_float q h
    = (Ok PNone,
       [ StWrite [PStr ("Requesting data from: " ++ request_url str_float q)];
         HttpGet (request_url str_float q) (API_USERNAME, API_PASSWORD);
         StError ("Failed to fetch data: " ++ general);
         StError (status_message (status_code response));
         StWrite [PStr "Response content:"; PStr (text response)] ]).
Proof.
  intros Hnet Hcode.
  destruct (raise_for_status_error response Hcode) as (msg & Hmsg).
  exists msg. rewrite get_weather_data_body_cases. cbn zeta.
  rewrite Hnet, Hmsg. reflexivity.
Qed.

(** X14: a fetch that failed with an HTTP error status is cached like a
    payload: the next identical call returns None again without asking the
    server, whatever the server would answer now, and shows the same four
    lines again. *)
Theorem failed_fetch_is_cached
    (API_USERNAME API_PASSWORD : option string)
    (requests_get : nat -> string -> option string * option string -> result Response)
    (json_loads : string -> result pyval) (str_float : float -> string)
    (q : Query) (w : World) (response : Response) :
  cache_lookup (query_key q) (cache w) = None ->
  requests_get (request_count (events w)) (request_url str_float q)
    (API_USERNAME, API_PASSWORD)
  = Ok response ->
  400 <= status_code response < 600 ->
  exists general w1,
    get_weather_data API_USERNAME API_PASSWORD requests_get json_loads str_float q w
    = (Ok PNone, w1)
    /\ get_weather_data API_USERNAME API_PASSWORD requests_get json_loads str_float q w1
       = (Ok PNone,
          {| events :=
               events w1
                 ++ [ StWrite [PStr ("Requesting data from: " ++ request_url str_float q)];
                      StError ("Failed to fetch data: " ++ general);
                      StError (status_message (status_code response));
                      StWrite [PStr "Response content:"; PStr (text response)] ];
             cache := cache w1 |}).
Proof.
  intros Hmiss Hnet Hcode.
  destruct (http_error_run API_USERNAME API_PASSWORD requests_get
              json_loads str_float q (events w) response Hnet Hcode) as (general & Hbody).
  exists general. eexists. split.
  - rewrite (get_weather_data_miss _ _ _ _ _ q w Hmiss), Hbody. reflexivity.
  - match goal with
    | |- get_weather_data _ _ _ _ _ _ {| events := ?ev; cache := (?k, ?entry) :: ?c |} = _ =>
        rewrite (get_weather_data_hit _ _ _ _ _ q {| events := ev; cache := (k, entry) :: c |}
                   entry)
    end.
    + reflexivity.
    + cbn. destruct (decide (query_key q = query_key q)); [reflexivity|congruence].
Qed.

Lemma failed_fetch_is_cached_witness :
  exists general w1,
    get_weather_data (Some "user") (Some "wrong") (server_answers 401 "Unauthorized" "")
      loads_fails str_float_defaults default_query fresh_session
    = (Ok PNone, w1)
    /\ get_weather_data (Some "user") (Some "wrong") (server_answers 401 "Unauthorized" "")
         loads_fails str_float_defaults default_query w1
       = (Ok PNone,
          {| events :=
               events w1
                 ++ [ StWrite [PStr ("Requesting data from: "
                                       ++ request_url str_float_defaults default_query)];
                      StError ("Failed to fetch data: " ++ general);
                      StError (status_message 401);
                      StWrite [PStr "Response content:"; PStr ""] ];
             cache := cache w1 |}).
Proof.
  apply (failed_fetch_is_cached (Some "user") (Some "wrong")
           (server_answers 401 "Unauthorized" "") loads_fails str_float_defaults
           default_query fresh_session
           {| status_code := 401; reason := "Unauthorized"; text := "";
              url := request_url str_float_defaults default_query |}).
  - reflexivity.
  - reflexivity.
  - cbn. lia.
Defined.

(** X15: [parameters] is no part of the request but is part of the cache key:
    two calls that differ only in [parameters], neither cached before, send
    two requests, both to the same URL. *)
Theorem other_parameters_repeat_the_request
    (API_USERNAME API_PASSWORD : option string)
    (requests_get : nat -> string -> option string * option string -> result Response)
    (json_loads : string -> result pyval) (str_float : float -> string)
    (s e : date) (p1 p2 : list string) (la lo : float) (w : World) :
  let q1 := {| start_date := s; end_date := e; parameters := p1; lat := la; lon := lo |} in
  let q2 := {| start_date := s; end_date := e; parameters := p2; lat := la; lon := lo |} in
  let fetch := get_weather_data API_USERNAME API_PASSWORD requests_get json_loads str_float in
  p1 <> p2 ->
  cache_lookup (query_key q1) (cache w) = None ->
  cache_lookup (query_key q2) (cache w) = None ->
  request_count (events (snd (fetch q2 (snd (fetch q1 w))))) = S (S (request_count (events w)))
  /\ List.filter is_http_get (events (snd (fetch q2 (snd (fetch q1 w)))))
     = (List.filter is_http_get (events w)
          ++ [ HttpGet (request_url str_float q1) (API_USERNAME, API_PASSWORD);
               HttpGet (request_url str_float q1) (API_USERNAME, API_PASSWORD) ])%list.
Proof.
  cbn zeta. intros Hne H1 H2.
  set (q1 := {| start_date := s; end_date := e; parameters := p1; lat := la; lon := lo |}).
  set (q2 := {| start_date := s; end_date := e; parameters := p2; lat := la; lon := lo |}).
  fold q1 in H1. fold q2 in H2.
  assert (Hkeys : query_key q2 <> query_key q1).
  { unfold query_key, q1, q2. cbn. intros [= H]. congruence. }
  pose proof (get_weather_data_keeps_other_misses API_USERNAME API_PASSWORD requests_get
                json_loads str_float q1 w (query_key q2) Hkeys H2) as H2'.
  assert (Hf : List.filter is_http_get (events (snd (get_weather_data API_USERNAME
                 API_PASSWORD requests_get json_loads str_float q2
                 (snd (get_weather_data API_USERNAME API_PASSWORD requests_get json_loads
                         str_float q1 w)))))
               = (List.filter is_http_get (events w)
                    ++ [ HttpGet (request_url str_float q1) (API_USERNAME, API_PASSWORD);
                         HttpGet (request_url str_float q1) (API_USERNAME, API_PASSWORD) ])%list).
  { rewrite (get_weather_data_miss_events _ _ _ _ _ q2 _ H2').
    rewrite (get_weather_data_miss_events _ _ _ _ _ q1 w H1).
    rewrite !List.filter_app, <- app_assoc. f_equal.
    destruct (get_weather_data_body_trace API_USERNAME API_PASSWORD requests_get json_loads
                str_float q1 (events w)) as (r1 & -> & Hr1).
    destruct (get_weather_data_body_trace API_USERNAME API_PASSWORD requests_get json_loads
                str_float q2
                (events w ++ StWrite [PStr ("Requesting data from: " ++ request_url str_float q1)]
                   :: HttpGet (request_url str_float q1) (API_USERNAME, API_PASSWORD) :: r1))
      as (r2 & -> & Hr2).
    cbn [List.filter is_http_get].
    assert (Hnone : forall r, forallb is_element r = true -> List.filter is_http_get r = []).
    { intros r Hr. pose proof (request_count_elements r Hr) as Hc.
      unfold request_count in Hc. now apply length_zero_iff_nil. }
    rewrite (Hnone r1 Hr1), (Hnone r2 Hr2). reflexivity. }
  split; [|exact Hf].
  unfold request_count. rewrite Hf, List.length_app. cbn. lia.
Qed.

Lemma other_parameters_repeat_the_request_witness :
  request_count
    (events
       (snd (get_weather_data (Some "user") (Some "secret") (server_answers 200 "OK" "{}")
               loads_fixture str_float_defaults
               {| start_date := start_date default_query; end_date := end_date default_query;
                  parameters := ["wind_speed_10m:ms"];
                  lat := lat default_query; lon := lon default_query |}
               (snd (get_weather_data (Some "user") (Some "secret")
                       (server_answers 200 "OK" "{}") loads_fixture str_float_defaults
                       {| start_date := start_date default_query;
                          end_date := end_date default_query;
                          parameters := ["precip_1h:mm"; "t_2m:C"];
                          lat := lat default_query; lon := lon default_query |}
                       fresh_session)))))
  = 2%nat.
Proof.
  refine (proj1 (other_parameters_repeat_the_request (Some "user") (Some "secret")
                   (server_answers 200 "OK" "{}") loads_fixture str_float_defaults
                   (start_date default_query) (end_date default_query)
                   ["precip_1h:mm"; "t_2m:C"] ["wind_speed_10m:ms"]
                   (lat default_query) (lon default_query) fresh_session _ _ _)).
  - discriminate.
  - reflexivity.
  - reflexivity.
Defined.

(** ** The summarizer, every outcome *)

Lemma analyze_weather_data_cases
    (chat_completions_create :
       nat -> list (string * string) -> string -> float -> result ChatCompletion)
    (str_payload : pyval -> string) (data : pyval) (h : list event) :
  analyze_weather_data chat_completions_create str_payload data h
  = (match chat_completions_create (length (List.filter is_groq_chat h))
             [("system", prompt); ("user", "Data input: " ++ str_payload data)]
             "mixtral-8x7b-32768" 0.5%float with
     | Ok reply =>
         match choices reply with
         | content :: _ => Ok content
         | [] =>
             Ok (PStr "An error occurred during the AI analysis: list index out of range. Please check your internet connection or API key.")
         end
     | Raise e =>
         if is_Exception e
         then Ok (PStr ("An error occurred during the AI analysis: " ++ exn_str e
                          ++ ". Please check your internet connection or API key."))
         else Raise e
     end,
     [GroqChat [("system", prompt); ("user", "Data input: " ++ str_payload data)]
        "mixtral-8x7b-32768" 0.5%float]).
Proof.
  unfold analyze_weather_data, bind, attempt, groq_chat, lift_result, first_message_content, ret.
  destruct (chat_completions_create _ _ _ _) as [[[|content rest]]|e]; cbn; try reflexivity.
  destruct (is_Exception e); reflexivity.
Qed.

(** X16: [analyze_weather_data] calls [client.chat.completions.create]
    exactly once, with the fixed prompt as system message, the payload as
    user message, the model mixtral-8x7b-32768 and temperature 0.5, and has
    no retry of its own (what the client does within that one call, its own
    retries of the HTTP request included, is not looked at); the only
    exceptions that leave it are those the call raised that are no instance
    of [Exception]. *)
Theorem analyze_weather_data_one_request_no_exception
    (chat_completions_create :
       nat -> list (string * string) -> string -> float -> result ChatCompletion)
    (str_payload : pyval -> string) (data : pyval) (h : list event) :
  snd (analyze_weather_data chat_completions_create str_payload data h)
  = [GroqChat [("system", prompt); ("user", "Data input: " ++ str_payload data)]
       "mixtral-8x7b-32768" 0.5%float]
  /\ forall e,
       fst (analyze_weather_data chat_completions_create str_payload data h) = Raise e ->
       is_Exception e = false
       /\ chat_completions_create (length (List.filter is_groq_chat h))
            [("system", prompt); ("user", "Data input: " ++ str_payload data)]
            "mixtral-8x7b-32768" 0.5%float
          = Raise e.
Proof.
  rewrite analyze_weather_data_cases. split; [reflexivity|]. cbn [fst].
  intros e. destruct (chat_completions_create _ _ _ _) as [[[|content rest]]|e'];
    cbn; try discriminate.
  destruct (is_Exception e') eqn:He; [discriminate|].
  intros [= <-]. split; [exact He|reflexivity].
Qed.

(** X17: when the API answers, [analyze_weather_data] returns the content of
    the first choice as it is (a string, or None when the message has no
    content) and ignores the other choices; an answer with no choice gives
    the explanatory string for "list index out of range". *)
Theorem analyze_weather_data_returns_first_choice
    (chat_completions_create :
       nat -> list (string * string) -> string -> float -> result ChatCompletion)
    (str_payload : pyval -> string) (data : pyval) (h : list event) (reply : ChatCompletion) :
  chat_completions_create (length (List.filter is_groq_chat h))
    [("system", prompt); ("user", "Data input: " ++ str_payload data)]
    "mixtral-8x7b-32768" 0.5%float
  = Ok reply ->
  fst (analyze_weather_data chat_completions_create str_payload data h)
  = match choices reply with
    | content :: _ => Ok content
    | [] =>
        Ok (PStr "An error occurred during the AI analysis: list index out of range. Please check your internet connection or API key.")
    end.
Proof.
  intros Hcall. rewrite analyze_weather_data_cases, Hcall. reflexivity.
Qed.

Lemma analyze_weather_data_returns_first_choice_witness :
  fst (analyze_weather_data
         (fun _ _ _ _ => Ok {| choices := [PNone; PStr "Rain is likely."] |})
         (fun _ => "{}") fixture [])
  = Ok PNone.
Proof.
  apply (analyze_weather_data_returns_first_choice
           (fun _ _ _ _ => Ok {| choices := [PNone; PStr "Rain is likely."] |})
           (fun _ => "{}") fixture [] {| choices := [PNone; PStr "Rain is likely."] |}).
  reflexivity.
Defined.

(** ** The page, step by step *)

Lemma shown_nil (w : World) : shown w [] = w.
Proof. destruct w as [ev c]. unfold shown. cbn. rewrite app_nil_r. reflexivity. Qed.

Lemma shown_shown (w : World) (a b : list event) : shown (shown w a) b = shown w (a ++ b).
Proof. unfold shown. cbn. rewrite <- app_assoc. reflexivity. Qed.

Lemma say_then {B} (ev : event) (k : Session B) (w : World) :
  sbind (say ev) (fun _ => k) w = k (shown w [ev]).
Proof. reflexivity. Qed.

Lemma of_result_then {A B} (r : result A) (k : A -> Session B) (w : World) :
  sbind (of_result r) k w
  = match r with
    | Ok a => k a w
    | Raise e => (Raise e, w)
    end.
Proof.
  unfold sbind, of_result, run_io, lift_result.
  change {| events := events w ++ []; cache := cache w |} with (shown w []).
  rewrite shown_nil. destruct r; reflexivity.
Qed.

Lemma run_io_ret (w : World) : run_io (ret tt) w = (Ok tt, w).
Proof.
  unfold run_io, ret.
  change {| events := events w ++ []; cache := cache w |} with (shown w []).
  rewrite shown_nil. reflexivity.
Qed.

Lemma run_io_then {A B} (m : IO A) (k : A -> Session B) (w : World) :
  sbind (run_io m) k w
  = match m (events w) with
    | (Ok a, out) => k a (shown w out)
    | (Raise e, out) => (Raise e, shown w out)
    end.
Proof.
  unfold sbind, run_io. destruct (m (events w)) as [[a|e] out]; reflexivity.
Qed.

Lemma sbind_assoc {A B C} (m : Session A) (k1 : A -> Session B) (k2 : B -> Session C)
      (w : World) :
  sbind (sbind m k1) k2 w = sbind m (fun a => sbind (k1 a) k2) w.
Proof. unfold sbind. destruct (m w) as [[a|e] w1]; reflexivity. Qed.

Section PageFacts.

Context (API_USERNAME API_PASSWORD : option string).
Context (requests_get : nat -> string -> option string * option string -> result Response).
Context (json_loads : string -> result pyval).
Context (str_float : float -> string).
Context (chat_completions_create :
           nat -> list (string * string) -> string -> float -> result ChatCompletion).
Context (str_payload : pyval -> string).
Context (translate : string -> string -> string -> result pyval).
Context (tts : string -> pyval -> string -> result pyval).
Context (st_audio : pyval -> result unit).
Context (confidence : Z).

Local Abbreviation page :=
  (rainfall_prediction_page API_USERNAME API_PASSWORD requests_get json_loads str_float
     chat_completions_create str_payload translate tts st_audio confidence).
Local Abbreviation fetch :=
  (get_weather_data API_USERNAME API_PASSWORD requests_get json_loads str_float).
Local Abbreviation results :=
  (page_results chat_completions_create str_payload translate tts st_audio confidence).

(** The page is the form, then, when the button was pressed, the fetch and
    what follows from its result. *)
Lemma rainfall_prediction_page_steps (inp : PageInputs) (w : World) :
  page inp w
  = if predict_pressed inp
    then
      match fetch (page_query inp)
              (shown w (form_events
                          ++ [StWrite [PStr ("API Username: " ++ str_optional API_USERNAME)]]))
      with
      | (Ok data, w1) => if py_truthy data then results inp data w1 else (Ok tt, w1)
      | (Raise e, w1) => (Raise e, w1)
      end
    else (Ok tt, shown w form_events).
Proof.
  unfold rainfall_prediction_page.
  rewrite !say_then, !shown_shown. cbn [app].
  destruct (predict_pressed inp).
  - rewrite say_then, shown_shown. cbn [app]. unfold sbind at 1.
    fold (page_query inp).
    destruct (get_weather_data _ _ _ _ _ (page_query inp) _) as [[data|e] w1]; [|reflexivity].
    destruct (py_truthy data); [reflexivity|apply run_io_ret].
  - apply run_io_ret.
Qed.

End PageFacts.

(** ** Steps that send no request *)

Lemma adds_no_request_bind {A B} (m : Session A) (k : A -> Session B) :
  adds_no_request m -> (forall a, adds_no_request (k a)) -> adds_no_request (sbind m k).
Proof.
  intros Hm Hk w. unfold sbind. specialize (Hm w).
  destruct (m w) as [[a|e] w1]; cbn [snd] in Hm.
  - destruct (Hk a w1) as [Hc He]. rewrite Hc, He. exact Hm.
  - exact Hm.
Qed.

Lemma adds_no_request_say (ev : event) :
  is_http_get ev = false -> adds_no_request (say ev).
Proof.
  intros Hev w. unfold say, run_io, emit. cbn. split; [reflexivity|].
  rewrite List.filter_app. cbn. rewrite Hev. apply app_nil_r.
Qed.

Lemma adds_no_request_of_result {A} (r : result A) : adds_no_request (of_result r).
Proof.
  intros w. unfold of_result, run_io, lift_result. cbn. split; [reflexivity|].
  rewrite app_nil_r. reflexivity.
Qed.

Lemma adds_no_request_ret : adds_no_request (run_io (ret tt)).
Proof. intros w. rewrite run_io_ret. split; reflexivity. Qed.

Lemma adds_no_request_analyze
    (chat_completions_create :
       nat -> list (string * string) -> string -> float -> result ChatCompletion)
    (str_payload : pyval -> string) (data : pyval) :
  adds_no_request (run_io (analyze_weather_data chat_completions_create str_payload data)).
Proof.
  intros w. unfold run_io. rewrite analyze_weather_data_cases. cbn. split; [reflexivity|].
  rewrite List.filter_app. cbn. apply app_nil_r.
Qed.

Lemma adds_no_request_speak
    (translate : string -> string -> string -> result pyval)
    (tts : string -> pyval -> string -> result pyval)
    (st_audio : pyval -> result unit) (key text : string) :
  adds_no_request (speak translate tts st_audio key text).
Proof.
  unfold speak.
  repeat first
    [ apply adds_no_request_bind; [|intros ?]
    | apply adds_no_request_say; reflexivity
    | apply adds_no_request_of_result ].
Qed.

Lemma adds_no_request_page_results
    (chat_completions_create :
       nat -> list (string * string) -> string -> float -> result ChatCompletion)
    (str_payload : pyval -> string)
    (translate : string -> string -> string -> result pyval)
    (tts : string -> pyval -> string -> result pyval)
    (st_audio : pyval -> result unit) (confidence : Z)
    (inp : PageInputs) (data : pyval) :
  adds_no_request
    (page_results chat_completions_create str_payload translate tts st_audio confidence
       inp data).
Proof.
  unfold page_results.
  repeat first
    [ apply adds_no_request_bind; [|intros ?]
    | apply adds_no_request_say; reflexivity
    | apply adds_no_request_of_result
    | apply adds_no_request_analyze
    | apply adds_no_request_speak
    | match goal with |- adds_no_request (if ?b then _ else _) => destruct b end ].
Qed.

Lemma fetch_request_count
    (API_USERNAME API_PASSWORD : option string)
    (requests_get : nat -> string -> option string * option string -> result Response)
    (json_loads : string -> result pyval) (str_float : float -> string)
    (q : Query) (w : World) :
  cache_holds_elements w ->
  request_count
    (events (snd (get_weather_data API_USERNAME API_PASSWORD requests_get json_loads
                    str_float q w)))
  = match cache_lookup (query_key q) (cache w) with
    | Some _ => request_count (events w)
    | None => S (request_count (events w))
    end.
Proof.
  intros Hinv.
  destruct (cache_lookup (query_key q) (cache w)) as [entry|] eqn:Hlook.
  - rewrite (get_weather_data_hit _ _ _ _ _ q w entry Hlook). cbn [snd events].
    rewrite request_count_app.
    rewrite (request_count_elements _ (cache_lookup_holds_elements _ _ _ Hinv Hlook)). lia.
  - rewrite (get_weather_data_miss_events _ _ _ _ _ q w Hlook), request_count_app.
    rewrite get_weather_data_body_request_count. lia.
Qed.

Lemma dates_of_truthy (data dates : pyval) : dates_of data = Ok dates -> py_truthy data = true.
Proof.
  unfold dates_of. destruct data as [| | | | | |kv]; cbn; try discriminate.
  destruct kv; [discriminate|reflexivity].
Qed.

Lemma plot_weather_data_other_label (data : pyval) (p1 p2 : string) (fig : Figure) :
  plot_weather_data data p1 = Ok fig ->
  plot_weather_data data p2
  = Ok {| fig_title := p2 ++ " over time"; fig_x := fig_x fig; fig_y := fig_y fig |}.
Proof.
  unfold plot_weather_data.
  destruct (dates_of data) as [dates|e]; cbn [rbind]; [|discriminate].
  destruct (pd_DataFrame dates) as [df|e]; cbn [rbind]; [|discriminate].
  unfold px_line.
  destruct (df_column "date" (df_data df)) as [xs|]; [|discriminate].
  destruct (df_column "value" (df_data df)) as [ys|]; [|discriminate].
  intros [= <-]. reflexivity.
Qed.

(** X18: until the button is pressed the page shows its form and does
    nothing else: no request, no call of a remote service, the cache
    untouched. *)
Theorem page_idle_until_pressed
    (API_USERNAME API_PASSWORD : option string)
    (requests_get : nat -> string -> option string * option string -> result Response)
    (json_loads : string -> result pyval) (str_float : float -> string)
    (chat_completions_create :
       nat -> list (string * string) -> string -> float -> result ChatCompletion)
    (str_payload : pyval -> string)
    (translate : string -> string -> string -> result pyval)
    (tts : string -> pyval -> string -> result pyval)
    (st_audio : pyval -> result unit) (confidence : Z)
    (inp : PageInputs) (w : World) :
  predict_pressed inp = false ->
  rainfall_prediction_page API_USERNAME API_PASSWORD requests_get json_loads str_float
    chat_completions_create str_payload translate tts st_audio confidence inp w
  = (Ok tt, shown w form_events)
  /\ forallb is_element form_events = true.
Proof.
  intros Hp. rewrite rainfall_prediction_page_steps, Hp. split; reflexivity.
Qed.

(** X19: when the fetch raises, the page ends with that exception; when it
    returns a value that is false in a condition (None after an HTTP error,
    an empty object), the page ends quietly: in both cases nothing is shown
    after the fetch and no other service is called. *)
Theorem page_ends_with_an_unsuccessful_fetch
    (API_USERNAME API_PASSWORD : option string)
    (requests_get : nat -> string -> option string * option string -> result Response)
    (json_loads : string -> result pyval) (str_float : float -> string)
    (chat_completions_create :
       nat -> list (string * string) -> string -> float -> result ChatCompletion)
    (str_payload : pyval -> string)
    (translate : string -> string -> string -> result pyval)
    (tts : string -> pyval -> string -> result pyval)
    (st_audio : pyval -> result unit) (confidence : Z)
    (inp : PageInputs) (w w1 : World) (r : result pyval) :
  predict_pressed inp = true ->
  get_weather_data API_USERNAME API_PASSWORD requests_get json_loads str_float
    (page_query inp)
    (shown w (form_events ++ [StWrite [PStr ("API Username: " ++ str_optional API_USERNAME)]]))
  = (r, w1) ->
  match r with
  | Ok data => py_truthy data = false
  | Raise _ => True
  end ->
  rainfall_prediction_page API_USERNAME API_PASSWORD requests_get json_loads str_float
    chat_completions_create str_payload translate tts st_audio confidence inp w
  = (match r with
     | Ok _ => Ok tt
     | Raise e => Raise e
     end, w1).
Proof.
  intros Hp Hfetch Hr. rewrite rainfall_prediction_page_steps, Hp, Hfetch.
  destruct r as [data|e]; [rewrite Hr|]; reflexivity.
Qed.

Lemma page_ends_with_an_unsuccessful_fetch_witness :
  rainfall_prediction_page (Some "user") (Some "wrong") (server_answers 401 "Unauthorized" "")
    loads_fails str_float_defaults (fun _ _ _ _ => Ok {| choices := [] |}) (fun _ => "{}")
    (fun _ _ _ => Ok PNone) (fun _ _ _ => Ok PNone) (fun _ => Ok tt) 85
    inputs_without_ghana_key fresh_session
  = (Ok tt,
     snd (get_weather_data (Some "user") (Some "wrong") (server_answers 401 "Unauthorized" "")
            loads_fails str_float_defaults (page_query inputs_without_ghana_key)
            (shown fresh_session (form_events ++ [StWrite [PStr "API Username: user"]])))).
Proof.
  apply (page_ends_with_an_unsuccessful_fetch (Some "user") (Some "wrong")
           (server_answers 401 "Unauthorized" "") loads_fails str_float_defaults
           (fun _ _ _ _ => Ok {| choices := [] |}) (fun _ => "{}")
           (fun _ _ _ => Ok PNone) (fun _ _ _ => Ok PNone) (fun _ => Ok tt) 85
           inputs_without_ghana_key fresh_session _ (Ok PNone)).
  - reflexivity.
  - vm_compute. reflexivity.
  - reflexivity.
Defined.

(** X20: one run of the page sends at most one request to the weather API,
    and none when the button is not pressed or the query is cached: the
    classifier, the charts, the heat map and the summarizer all work on the
    payload of that one fetch.  The run keeps the invariant of the cache. *)
Theorem page_sends_at_most_one_request
    (API_USERNAME API_PASSWORD : option string)
    (requests_get : nat -> string -> option string * option string -> result Response)
    (json_loads : string -> result pyval) (str_float : float -> string)
    (chat_completions_create :
       nat -> list (string * string) -> string -> float -> result ChatCompletion)
    (str_payload : pyval -> string)
    (translate : string -> string -> string -> result pyval)
    (tts : string -> pyval -> string -> result pyval)
    (st_audio : pyval -> result unit) (confidence : Z)
    (inp : PageInputs) (w : World) :
  cache_holds_elements w ->
  let after :=
    snd (rainfall_prediction_page API_USERNAME API_PASSWORD requests_get json_loads str_float
           chat_completions_create str_payload translate tts st_audio confidence inp w) in
  request_count (events after)
  = (if predict_pressed inp
     then match cache_lookup (query_key (page_query inp)) (cache w) with
          | Some _ => request_count (events w)
          | None => S (request_count (events w))
          end
     else request_count (events w))
  /\ cache_holds_elements after.
Proof.
  intros Hinv. cbn zeta. rewrite rainfall_prediction_page_steps.
  destruct (predict_pressed inp).
  - set (w0 := shown w (form_events
                          ++ [StWrite [PStr ("API Username: " ++ str_optional API_USERNAME)]])).
    assert (Hinv0 : cache_holds_elements w0) by exact Hinv.
    assert (Hcount0 : request_count (events w0) = request_count (events w)).
    { unfold w0, shown. cbn [events]. rewrite request_count_app.
      rewrite (request_count_elements (form_events ++ _)) by reflexivity. lia. }
    pose proof (fetch_request_count API_USERNAME API_PASSWORD requests_get json_loads
                  str_float (page_query inp) w0 Hinv0) as Hfetch.
    pose proof (get_weather_data_keeps_invariant API_USERNAME API_PASSWORD requests_get
                  json_loads str_float (page_query inp) w0 Hinv0) as Hkeep.
    rewrite Hcount0 in Hfetch. change (cache w0) with (cache w) in Hfetch.
    destruct (get_weather_data _ _ _ _ _ (page_query inp) w0) as [[data|e] w1];
      cbn [snd] in Hfetch, Hkeep; [|split; assumption].
    destruct (py_truthy data); [|split; assumption].
    destruct (adds_no_request_page_results chat_completions_create str_payload translate tts
                st_audio confidence inp data w1) as [Hc He].
    split.
    + unfold request_count in *. rewrite He. exact Hfetch.
    + unfold cache_holds_elements in *. rewrite Hc. exact Hkeep.
  - cbn [snd]. split; [|exact Hinv].
    unfold shown. cbn [events]. rewrite request_count_app.
    rewrite (request_count_elements form_events) by reflexivity. lia.
Qed.

Lemma page_sends_at_most_one_request_witness :
  request_count
    (events
       (snd (rainfall_prediction_page (Some "user") (Some "secret")
               (server_answers 200 "OK" "{}") loads_fixture str_float_defaults
               (fun _ _ _ _ => Ok {| choices := [PStr "Rain is likely."] |}) (fun _ => "{}")
               (fun _ _ _ => Ok (PStr "Osu")) (fun _ _ _ => Ok (PStr "RIFF")) (fun _ => Ok tt)
               85 inputs_without_ghana_key fresh_session)))
  = 1%nat.
Proof.
  apply (proj1 (page_sends_at_most_one_request (Some "user") (Some "secret")
                  (server_answers 200 "OK" "{}") loads_fixture str_float_defaults
                  (fun _ _ _ _ => Ok {| choices := [PStr "Rain is likely."] |}) (fun _ => "{}")
                  (fun _ _ _ => Ok (PStr "Osu")) (fun _ _ _ => Ok (PStr "RIFF"))
                  (fun _ => Ok tt) 85 inputs_without_ghana_key fresh_session
                  fresh_session_holds_elements)).
Defined.

Lemma page_idle_until_pressed_witness :
  rainfall_prediction_page None None (network_down "unreachable") loads_fails
    str_float_defaults (fun _ _ _ _ => Ok {| choices := [] |}) (fun _ => "{}")
    (fun _ _ _ => Ok PNone) (fun _ _ _ => Ok PNone) (fun _ => Ok tt) 85
    {| ghana_key := "";
       in_lat := 0x1.a42a16a487336p+5%float;
       in_lon := 0x1.aec7192ea52f0p+3%float;
       in_start_date := {| year := 2024; month := 10; day := 5 |};
       in_end_date := {| year := 2024; month := 10; day := 12 |};
       predict_pressed := false |}
    fresh_session
  = (Ok tt, shown fresh_session form_events)
  /\ forallb is_element form_events = true.
Proof.
  apply (page_idle_until_pressed None None (network_down "unreachable") loads_fails
           str_float_defaults (fun _ _ _ _ => Ok {| choices := [] |}) (fun _ => "{}")
           (fun _ _ _ => Ok PNone) (fun _ _ _ => Ok PNone) (fun _ => Ok tt) 85).
  reflexivity.
Defined.

(** X21: on a payload whose series is empty the page shows "No Rain" and the
    confidence, then ends with the [ValueError] of the first chart: no heat
    map, no advisory, no AI insight, and no call of the translation or chat
    service. *)
Theorem page_on_an_empty_series
    (API_USERNAME API_PASSWORD : option string)
    (requests_get : nat -> string -> option string * option string -> result Response)
    (json_loads : string -> result pyval) (str_float : float -> string)
    (chat_completions_create :
       nat -> list (string * string) -> string -> float -> result ChatCompletion)
    (str_payload : pyval -> string)
    (translate : string -> string -> string -> result pyval)
    (tts : string -> pyval -> string -> result pyval)
    (st_audio : pyval -> result unit) (confidence : Z)
    (inp : PageInputs) (w w1 : World) (data : pyval) :
  predict_pressed inp = true ->
  get_weather_data API_USERNAME API_PASSWORD requests_get json_loads str_float
    (page_query inp)
    (shown w (form_events ++ [StWrite [PStr ("API Username: " ++ str_optional API_USERNAME)]]))
  = (Ok data, w1) ->
  dates_of data = Ok (PList []) ->
  exists e,
    exn_cls e = ValueError
    /\ rainfall_prediction_page API_USERNAME API_PASSWORD requests_get json_loads str_float
         chat_completions_create str_payload translate tts st_audio confidence inp w
       = (Raise e,
          shown w1
            [ StSubheader "Rainfall Prediction Results 📊";
              StMetric "Rainfall Prediction" "No Rain ☀️";
              StMetric "Prediction Confidence" (pretty confidence ++ "%");
              StSubheader "Weather Visualization 📈" ]).
Proof.
  intros Hp Hfetch Hdates.
  rewrite rainfall_prediction_page_steps, Hp, Hfetch, (dates_of_truthy data _ Hdates).
  unfold page_results.
  assert (Hpred : predict_rainfall data = Ok false).
  { unfold predict_rainfall, precip_data. rewrite Hdates. reflexivity. }
  assert (Hplot : exists e, exn_cls e = ValueError
                            /\ plot_weather_data data "Precipitation (mm)" = Raise e).
  { rewrite (plot_weather_data_records data _ [] Hdates). eexists. split; [|reflexivity].
    reflexivity. }
  destruct Hplot as (e & He & Hplot). exists e. split; [exact He|].
  rewrite of_result_then, Hpred.
  rewrite !say_then, !shown_shown. cbn [app].
  rewrite of_result_then, Hplot. reflexivity.
Qed.

Lemma page_on_an_empty_series_witness :
  exists e,
    exn_cls e = ValueError
    /\ rainfall_prediction_page (Some "user") (Some "secret") (server_answers 200 "OK" "{}")
         (fun _ => Ok empty_fixture) str_float_defaults
         (fun _ _ _ _ => Ok {| choices := [] |}) (fun _ => "{}")
         (fun _ _ _ => Ok PNone) (fun _ _ _ => Ok PNone) (fun _ => Ok tt) 85
         inputs_without_ghana_key fresh_session
       = (Raise e,
          shown
            (snd (get_weather_data (Some "user") (Some "secret")
                    (server_answers 200 "OK" "{}") (fun _ => Ok empty_fixture)
                    str_float_defaults (page_query inputs_without_ghana_key)
                    (shown fresh_session
                       (form_events ++ [StWrite [PStr "API Username: user"]]))))
            [ StSubheader "Rainfall Prediction Results 📊";
              StMetric "Rainfall Prediction" "No Rain ☀️";
              StMetric "Prediction Confidence" (pretty 85 ++ "%");
              StSubheader "Weather Visualization 📈" ]).
Proof.
  apply (page_on_an_empty_series (Some "user") (Some "secret") (server_answers 200 "OK" "{}")
           (fun _ => Ok empty_fixture) str_float_defaults
           (fun _ _ _ _ => Ok {| choices := [] |}) (fun _ => "{}")
           (fun _ _ _ => Ok PNone) (fun _ _ _ => Ok PNone) (fun _ => Ok tt) 85
           inputs_without_ghana_key fresh_session _ empty_fixture).
  - reflexivity.
  - vm_compute. reflexivity.
  - reflexivity.
Defined.

(** X22: when every step succeeds the page shows, after the fetch and in this
    order: the prediction and the confidence, two charts, the heat map, the
    advisory that matches the prediction, its translation and speech, and the
    AI insight, which is the first choice of the chat answer.  The chart
    titled with the temperature has the same points as the one titled with
    the precipitation, and every reader works on the payload of the one
    fetch. *)
Theorem page_successful_run
    (API_USERNAME API_PASSWORD : option string)
    (requests_get : nat -> string -> option string * option string -> result Response)
    (json_loads : string -> result pyval) (str_float : float -> string)
    (chat_completions_create :
       nat -> list (string * string) -> string -> float -> result ChatCompletion)
    (str_payload : pyval -> string)
    (translate : string -> string -> string -> result pyval)
    (tts : string -> pyval -> string -> result pyval)
    (st_audio : pyval -> result unit) (confidence : Z)
    (inp : PageInputs) (w w1 : World) (data : pyval)
    (rain : bool) (fig : Figure) (m : FoliumMap) (translated audio content : pyval)
    (others : list pyval) :
  let advisory := if rain then rain_advisory else dry_advisory in
  let messages := [("system", prompt); ("user", "Data input: " ++ str_payload data)] in
  predict_pressed inp = true ->
  get_weather_data API_USERNAME API_PASSWORD requests_get json_loads str_float
    (page_query inp)
    (shown w (form_events ++ [StWrite [PStr ("API Username: " ++ str_optional API_USERNAME)]]))
  = (Ok data, w1) ->
  predict_rainfall data = Ok rain ->
  plot_weather_data data "Precipitation (mm)" = Ok fig ->
  create_heatmap data (in_lat inp) (in_lon inp) = Ok m ->
  translate (ghana_key inp) advisory "en-tw" = Ok translated ->
  tts (ghana_key inp) translated "tw" = Ok audio ->
  st_audio audio = Ok tt ->
  (forall n, chat_completions_create n messages "mixtral-8x7b-32768" 0.5%float
             = Ok {| choices := content :: others |}) ->
  rainfall_prediction_page API_USERNAME API_PASSWORD requests_get json_loads str_float
    chat_completions_create str_payload translate tts st_audio confidence inp w
  = (Ok tt,
     shown w1
       [ StSubheader "Rainfall Prediction Results 📊";
         StMetric "Rainfall Prediction" (if rain then "Rain ☔" else "No Rain ☀️");
         StMetric "Prediction Confidence" (pretty confidence ++ "%");
         StSubheader "Weather Visualization 📈";
         StPlotlyChart fig;
         StPlotlyChart {| fig_title := "Temperature (°C) over time";
                          fig_x := fig_x fig; fig_y := fig_y fig |};
         StWrite [PStr "Precipitation Heatmap"];
         StFoliumStatic m;
         StSubheader "Farmer's Insight 🌾";
         (if rain then StInfo rain_advisory else StWarning dry_advisory);
         GhanaTranslate (ghana_key inp) advisory "en-tw";
         GhanaTts (ghana_key inp) translated "tw";
         StAudio audio;
         GroqChat messages "mixtral-8x7b-32768" 0.5%float;
         StSubheader "AI-Powered Insight 💡";
         StWrite [content] ]).
Proof.
  cbn zeta. intros Hp Hfetch Hpred Hplot Hmap Htr Htts Haudio Hchat.
  assert (Htruthy : py_truthy data = true).
  { unfold predict_rainfall, precip_data in Hpred.
    destruct (dates_of data) as [dates|e] eqn:Hd; [|discriminate].
    exact (dates_of_truthy data dates Hd). }
  rewrite rainfall_prediction_page_steps, Hp, Hfetch, Htruthy.
  pose proof (plot_weather_data_other_label data _ "Temperature (°C)" fig Hplot) as Hplot2.
  unfold page_results, speak.
  destruct rain;
    repeat first
      [ rewrite say_then
      | rewrite shown_shown
      | rewrite of_result_then
      | rewrite sbind_assoc
      | rewrite Hpred | rewrite Hplot | rewrite Hplot2 | rewrite Hmap
      | rewrite Htr | rewrite Htts | rewrite Haudio
      | rewrite run_io_then, analyze_weather_data_cases, Hchat
      | progress cbn [app choices] ];
    unfold say, run_io, emit, shown; cbn; rewrite <- app_assoc; reflexivity.
Qed.

Lemma page_successful_run_witness :
  fst (rainfall_prediction_page (Some "user") (Some "secret") (server_answers 200 "OK" "{}")
         loads_fixture str_float_defaults
         (fun _ _ _ _ => Ok {| choices := [PStr "Rain is likely."] |}) (fun _ => "{}")
         (fun _ _ _ => Ok (PStr "Osu")) (fun _ _ _ => Ok (PStr "RIFF")) (fun _ => Ok tt) 85
         inputs_without_ghana_key fresh_session)
  = Ok tt.
Proof.
  refine (f_equal fst
            (page_successful_run (Some "user") (Some "secret") (server_answers 200 "OK" "{}")
               loads_fixture str_float_defaults
               (fun _ _ _ _ => Ok {| choices := [PStr "Rain is likely."] |}) (fun _ => "{}")
               (fun _ _ _ => Ok (PStr "Osu")) (fun _ _ _ => Ok (PStr "RIFF")) (fun _ => Ok tt)
               85 inputs_without_ghana_key fresh_session _ fixture true _ _
               (PStr "Osu") (PStr "RIFF") (PStr "Rain is likely.") [] _ _ _ _ _ _ _ _ _));
    reflexivity.
Defined.

(** ** The dates in the request URL *)

Lemma renders_back_years : forallb (renders_back 4) (seq 1 9999) = true.
Proof. vm_compute. reflexivity. Qed.

Lemma renders_back_months_days : forallb (renders_back 2) (seq 1 31) = true.
Proof. vm_compute. reflexivity. Qed.

Lemma zero_padded_reads_back (width : nat) (bound : nat) (n : Z) :
  forallb (renders_back width) (seq 1 bound) = true ->
  1 <= n <= Z.of_nat bound ->
  digits_value 0 (zero_padded width n) = Some n
  /\ String.length (zero_padded width n) = width.
Proof.
  intros Hall Hn. rewrite List.forallb_forall in Hall.
  specialize (Hall (Z.to_nat n)).
  assert (Hin : In (Z.to_nat n) (seq 1 bound)) by (apply in_seq; lia).
  specialize (Hall Hin). unfold renders_back in Hall.
  rewrite Z2Nat.id in Hall by lia.
  destruct (digits_value 0 (zero_padded width n)) as [v|]; [|discriminate].
  apply andb_prop in Hall as [Hv Hl].
  apply Z.eqb_eq in Hv. apply Nat.eqb_eq in Hl. subst v. split; [reflexivity|exact Hl].
Qed.

Lemma year_reads_back (n : Z) :
  1 <= n <= 9999 ->
  digits_value 0 (zero_padded 4 n) = Some n /\ String.length (zero_padded 4 n) = 4%nat.
Proof.
  intros Hn. apply (zero_padded_reads_back 4 9999 n renders_back_years).
  assert (E : Z.of_nat 9999 = 9999) by (vm_compute; reflexivity).
  rewrite E. exact Hn.
Qed.

Lemma month_day_reads_back (n : Z) :
  1 <= n <= 31 ->
  digits_value 0 (zero_padded 2 n) = Some n /\ String.length (zero_padded 2 n) = 2%nat.
Proof.
  intros Hn. apply (zero_padded_reads_back 2 31 n renders_back_months_days). cbn. lia.
Qed.

Lemma append_same_length (a1 a2 b1 b2 : string) :
  String.length a1 = String.length a2 ->
  a1 ++ b1 = a2 ++ b2 -> a1 = a2 /\ b1 = b2.
Proof.
  revert a2. induction a1 as [|c a1 IH]; intros [|c2 a2]; cbn; try discriminate.
  - intros _ H. split; [reflexivity|exact H].
  - intros Hl H. injection Hl as Hl. injection H as Hc H.
    destruct (IH a2 Hl H) as [-> ->]. subst. split; reflexivity.
Qed.

Lemma str_date_length (d : date) : valid_date d -> String.length (str_date d) = 10%nat.
Proof.
  intros (Hy & Hm & Hd). unfold str_date.
  destruct (year_reads_back (year d)) as [_ Ly]; [lia|].
  destruct (month_day_reads_back (month d)) as [_ Lm]; [lia|].
  destruct (month_day_reads_back (day d)) as [_ Ld]; [lia|].
  assert (Hlen : forall a b, String.length (a ++ b) = (String.length a + String.length b)%nat).
  { induction a as [|c a IH]; intros b; simpl; [reflexivity|]. now rewrite IH. }
  rewrite !Hlen, Ly, Lm, Ld. reflexivity.
Qed.

Lemma str_date_inj (d1 d2 : date) :
  valid_date d1 -> valid_date d2 -> str_date d1 = str_date d2 -> d1 = d2.
Proof.
  intros (Hy1 & Hm1 & Hd1) (Hy2 & Hm2 & Hd2). unfold str_date.
  destruct (year_reads_back (year d1)) as [Vy1 Ly1]; [lia|].
  destruct (year_reads_back (year d2)) as [Vy2 Ly2]; [lia|].
  destruct (month_day_reads_back (month d1)) as [Vm1 Lm1]; [lia|].
  destruct (month_day_reads_back (month d2)) as [Vm2 Lm2]; [lia|].
  destruct (month_day_reads_back (day d1)) as [Vd1 Ld1]; [lia|].
  destruct (month_day_reads_back (day d2)) as [Vd2 Ld2]; [lia|].
  intros H.
  apply append_same_length in H as [Hy H]; [|congruence].
  apply (append_inv_head "-") in H.
  apply append_same_length in H as [Hm H]; [|congruence].
  apply (append_inv_head "-") in H.
  rewrite Hy in Vy1. rewrite Hm in Vm1. rewrite H in Vd1.
  destruct d1 as [y1 m1 dd1], d2 as [y2 m2 dd2]. cbn in *.
  f_equal; congruence.
Qed.

(** X23: the request URL tells the date range: for dates as [datetime.date]
    holds them, two queries with the same URL have the same start date and
    the same end date, and each date takes exactly ten characters
    (YYYY-MM-DD, zero padded) in the URL. *)
Theorem request_url_determines_the_dates
    (str_float : float -> string) (q1 q2 : Query) :
  valid_date (start_date q1) -> valid_date (end_date q1) ->
  valid_date (start_date q2) -> valid_date (end_date q2) ->
  request_url str_float q1 = request_url str_float q2 ->
  start_date q1 = start_date q2
  /\ end_date q1 = end_date q2
  /\ String.length (str_date (start_date q1)) = 10%nat
  /\ String.length (str_date (end_date q1)) = 10%nat.
Proof.
  intros Hs1 He1 Hs2 He2 H. unfold request_url in H.
  apply append_inv_head in H.
  apply append_same_length in H as [Hs H];
    [|rewrite !str_date_length by assumption; reflexivity].
  apply (append_inv_head "T00:00:00Z--") in H.
  apply append_same_length in H as [He _];
    [|rewrite !str_date_length by assumption; reflexivity].
  split; [exact (str_date_inj _ _ Hs1 Hs2 Hs)|].
  split; [exact (str_date_inj _ _ He1 He2 He)|].
  split; apply str_date_length; assumption.
Qed.

Lemma request_url_determines_the_dates_witness :
  start_date default_query = start_date default_query
  /\ end_date default_query = end_date default_query
  /\ String.length (str_date (start_date default_query)) = 10%nat
  /\ String.length (str_date (end_date default_query)) = 10%nat.
Proof.
  apply (request_url_determines_the_dates str_float_defaults default_query default_query);
    try (unfold valid_date; cbn; lia).
  reflexivity.
Defined.
